(** * copybot: the Streamlit front-end [streamlit_app.py]

    A shallow embedding of the form front-end of the copywriting agent.

    Streamlit executes the script from top to bottom on every user
    interaction.  One execution is modelled as a computation on a
    [world]: the session state ([st.session_state], which survives from
    one execution to the next), the store of the agent objects
    constructed so far, and a trace of what the executions showed and of
    the calls they made to the agent.  The input of an execution is a
    [form]: the values of the input widgets and the button whose click
    triggered it; [st.button] is true for that button only, and only in
    that execution.

    The agent framework ([agent_framework.MultiModalCopyAgent]) and the
    library functions the script calls ([str.lower], [json.dumps],
    [datetime.isoformat], ...) are parameters of the model. *)

From Stdlib Require Import List NArith ZArith Bool Ascii String Lia.
From Stdlib Require Import PrimFloat FloatOps SpecFloat.
Import ListNotations.

Set Implicit Arguments.

(* ================================================================== *)
(** * Python strings *)
(* ================================================================== *)

Module PyStr.

(** A Python [str] is a sequence of Unicode code points. *)
Definition pychar := N.
Definition pystr := list pychar.

(** ASCII literals of the source, as code points. *)
Definition lit (s : string) : pystr :=
  map N_of_ascii (list_ascii_of_string s).

Definition comma : pychar := 44%N.
Definition newline : pychar := 10%N.

(** [str.isspace] on one code point: the characters [str.strip()]
    removes when called without argument. *)
Definition isspace (c : pychar) : bool :=
  ((9 <=? c) && (c <=? 13) ||
   (28 <=? c) && (c <=? 32) ||
   (c =? 133) || (c =? 160) || (c =? 5760) ||
   (8192 <=? c) && (c <=? 8202) ||
   (c =? 8232) || (c =? 8233) || (c =? 8239) || (c =? 8287) ||
   (c =? 12288))%N.

(** [s.lstrip()], [s.rstrip()], [s.strip()]. *)
Fixpoint lstrip (s : pystr) : pystr :=
  match s with
  | [] => []
  | c :: s' => if isspace c then lstrip s' else s
  end.

Definition rstrip (s : pystr) : pystr := rev (lstrip (rev s)).

Definition strip (s : pystr) : pystr := rstrip (lstrip s).

(** [s.split(sep)] for a one-character separator: the pieces between
    the occurrences of [sep]; there is always at least one piece. *)
Fixpoint split (sep : pychar) (s : pystr) : list pystr :=
  match s with
  | [] => [[]]
  | c :: s' =>
      if (c =? sep)%N then [] :: split sep s'
      else match split sep s' with
           | [] => [[c]]
           | w :: ws => (c :: w) :: ws
           end
  end.

(** Truth value of a string: non-empty. *)
Definition truthy (s : pystr) : bool :=
  match s with [] => false | _ :: _ => true end.

(** [sep.join(parts)]. *)
Fixpoint join (sep : pystr) (parts : list pystr) : pystr :=
  match parts with
  | [] => []
  | [p] => p
  | p :: ps => p ++ sep ++ join sep ps
  end.

(** The comprehension [[x.strip() for x in xs if x.strip()]]. *)
Definition stripped_nonblank (xs : list pystr) : list pystr :=
  flat_map (fun x => if truthy (strip x) then [strip x] else []) xs.

(** A string made of whitespace only (the empty string included). *)
Definition blank (s : pystr) : bool := forallb isspace s.

End PyStr.
Import PyStr.

(* ================================================================== *)
(** * Python values *)
(* ================================================================== *)

Fixpoint pystr_eqb (a b : pystr) : bool :=
  match a, b with
  | [], [] => true
  | x :: a', y :: b' => (x =? y)%N && pystr_eqb a' b'
  | _, _ => false
  end.

(** The values that travel in the free-form [metadata] mapping and in
    the documents handed to [json.dumps].  [PObject] stands for any
    object outside the JSON data model (a [datetime], a numpy scalar):
    [json.dumps] raises [TypeError] on it. *)
#[warnings="-register-all"]
Inductive pyval : Type :=
| PNone
| PBool (b : bool)
| PInt (z : Z)
| PFloat (f : float)
| PStr (s : pystr)
| PList (l : list pyval)
| PDict (d : list (pystr * pyval))
| PObject (repr : pystr).

(** A [dict] with string keys, in insertion order. *)
Definition pydict (V : Type) := list (pystr * V).

(** [d.get(k)] *)
Fixpoint dict_get {V} (k : pystr) (d : pydict V) : option V :=
  match d with
  | [] => None
  | (k', v) :: d' => if pystr_eqb k k' then Some v else dict_get k d'
  end.

(** [d[k] = v]: an existing key keeps its position. *)
Fixpoint dict_set {V} (k : pystr) (v : V) (d : pydict V) : pydict V :=
  match d with
  | [] => [(k, v)]
  | (k', v') :: d' =>
      if pystr_eqb k k' then (k, v) :: d' else (k', v') :: dict_set k v d'
  end.


(** What a call returns or raises; an exception is kept as [str(e)]. *)
Inductive result (A : Type) : Type :=
| Ok (a : A)
| Exception (msg : pystr).
Arguments Exception {A} msg.

(* ================================================================== *)
(** * A reference [json] codec *)
(* ================================================================== *)

(** The script uses [json.dumps(v, indent=2)] and its reader uses
    [json.loads]; the model of the script takes both as parameters.
    This module gives an executable pair to run the model with. *)
Module Json.

(** ** Numbers *)

Fixpoint uint_digits (d : Decimal.uint) : pystr :=
  match d with
  | Decimal.Nil => []
  | Decimal.D0 d => 48%N :: uint_digits d
  | Decimal.D1 d => 49%N :: uint_digits d
  | Decimal.D2 d => 50%N :: uint_digits d
  | Decimal.D3 d => 51%N :: uint_digits d
  | Decimal.D4 d => 52%N :: uint_digits d
  | Decimal.D5 d => 53%N :: uint_digits d
  | Decimal.D6 d => 54%N :: uint_digits d
  | Decimal.D7 d => 55%N :: uint_digits d
  | Decimal.D8 d => 56%N :: uint_digits d
  | Decimal.D9 d => 57%N :: uint_digits d
  end.

(** [str(n)] for a natural number. *)
Definition digits (n : N) : pystr := uint_digits (N.to_uint n).

(** [str(z)] *)
Definition int_repr (z : Z) : pystr :=
  match z with
  | Z0 => lit "0"
  | Zpos p => digits (Npos p)
  | Zneg p => 45%N :: digits (Npos p)
  end.



(** The float nearest to [n / d], ties to even ([d > 0]). *)
Definition float_of_ratio (negative : bool) (n d : Z) : float :=
  if (n =? 0)%Z then (if negative then (-0)%float else 0%float)
  else
    let k := Z.max 0 (64 + Z.log2 d - Z.log2 n) in
    let q := (n * 2 ^ k / d)%Z in
    let r := (n * 2 ^ k mod d)%Z in
    let m := (2 * q + (if (r =? 0)%Z then 0 else 1))%Z in
    SF2Prim (binary_normalize prec emax (if negative then - m else m)
                              (- k - 1) false).

(** [n / d] scaled by [10 ^ - p]. *)
Definition scale10 (n d p : Z) : Z * Z :=
  if (0 <=? p)%Z then (n, d * 10 ^ p)%Z else (n * 10 ^ (- p), d)%Z.

(** The decimal exponent of [n / d]: the [p] with
    [10 ^ p <= n / d < 10 ^ (p + 1)]. *)
Definition decimal_exponent (n d : Z) : Z :=
  let p0 := ((Z.log2 n - Z.log2 d) * 30103 / 100000 - 2)%Z in
  let fix up (fuel : nat) (p : Z) : Z :=
    match fuel with
    | O => p
    | S fuel' =>
        let (n', d') := scale10 n d (p + 1) in
        if (d' <=? n')%Z then up fuel' (p + 1)%Z else p
    end in
  up 8%nat p0.

Fixpoint strip_trailing_zeros_rev (r : pystr) : pystr :=
  match r with
  | 48%N :: r' => strip_trailing_zeros_rev r'
  | _ => r
  end.

Definition strip_trailing_zeros (s : pystr) : pystr :=
  rev (strip_trailing_zeros_rev (rev s)).

(** The shortest digit string that reads back as [x = n / d], with its
    decimal exponent: the digits [c] and the [p] of [c[0].c[1:] * 10^p]. *)
Definition shortest_digits (x : float) (n d : Z) : pystr * Z :=
  let p := decimal_exponent n d in
  let fix search (fuel : nat) (nd : Z) : pystr * Z :=
    let scale := (p - nd + 1)%Z in
    let (ny, dy) := scale10 n d scale in
    let lo := (ny / dy)%Z in
    let rem := (ny mod dy)%Z in
    let hi := (lo + 1)%Z in
    let reads c :=
      let (cn, cd) := scale10 c 1 (- scale) in
      PrimFloat.eqb (float_of_ratio false cn cd) x in
    let lo_first := orb (2 * rem <? dy)%Z
                        (andb (2 * rem =? dy)%Z (Z.even lo)) in
    let pick c :=
      let ds := digits (Z.to_N c) in
      (strip_trailing_zeros ds,
       (scale + Z.of_nat (List.length ds) - 1)%Z) in
    let first := if lo_first then lo else hi in
    let second := if lo_first then hi else lo in
    if andb (0 <? first)%Z (reads first) then pick first
    else if andb (0 <? second)%Z (reads second) then pick second
    else match fuel with
         | O => pick first
         | S fuel' => search fuel' (nd + 1)%Z
         end in
  search 17%nat 1%Z.

Definition zeros (k : Z) : pystr := repeat 48%N (Z.to_nat k).

(** [repr] of a positive finite float, from its digits. *)
Definition format_digits (ds : pystr) (p : Z) : pystr :=
  let nd := Z.of_nat (List.length ds) in
  if andb (-4 <=? p)%Z (p <=? 15)%Z then
    if (p <? 0)%Z then lit "0." ++ zeros (- p - 1) ++ ds
    else if (nd <=? p + 1)%Z then ds ++ zeros (p + 1 - nd) ++ lit ".0"
    else firstn (Z.to_nat (p + 1)) ds ++ [46%N] ++ skipn (Z.to_nat (p + 1)) ds
  else
    let mantissa :=
      match ds with
      | [] => []
      | [c] => [c]
      | c :: rest => c :: 46%N :: rest
      end in
    let e := digits (Z.to_N (Z.abs p)) in
    mantissa ++ [101%N] ++ [if (p <? 0)%Z then 45%N else 43%N]
             ++ (if (Z.abs p <? 10)%Z then [48%N] else []) ++ e.

(** [float.__repr__], as [json.dumps] writes a float. *)
Definition float_repr (x : float) : pystr :=
  match Prim2SF x with
  | S754_nan => lit "NaN"
  | S754_infinity false => lit "Infinity"
  | S754_infinity true => lit "-Infinity"
  | S754_zero false => lit "0.0"
  | S754_zero true => lit "-0.0"
  | S754_finite s m e =>
      let (n, d) := if (0 <=? e)%Z then (Z.pos m * 2 ^ e, 1)%Z
                    else (Z.pos m, 2 ^ (- e))%Z in
      let (ds, p) := shortest_digits (abs x) n d in
      (if s then [45%N] else []) ++ format_digits ds p
  end.

(** ** Strings *)

Definition hex_digit (n : N) : pychar :=
  (if n <? 10 then 48 + n else 87 + n)%N.

Definition u_escape (n : N) : pystr :=
  [92; 117; hex_digit (n / 4096); hex_digit ((n / 256) mod 16);
   hex_digit ((n / 16) mod 16); hex_digit (n mod 16)]%N.

(** [ensure_ascii=True]: everything outside [' '..'~'] is escaped. *)
Definition escape_char (c : pychar) : pystr :=
  (if c =? 34 then [92; 34]
   else if c =? 92 then [92; 92]
   else if c =? 10 then [92; 110]
   else if c =? 13 then [92; 114]
   else if c =? 9 then [92; 116]
   else if c =? 12 then [92; 102]
   else if c =? 8 then [92; 98]
   else if (32 <=? c) && (c <=? 126) then [c]
   else if c <? 65536 then u_escape c
   else u_escape (55296 + (c - 65536) / 1024)
        ++ u_escape (56320 + (c - 65536) mod 1024))%N.

Definition str_repr (s : pystr) : pystr :=
  [34%N] ++ flat_map escape_char s ++ [34%N].

(** ** [json.dumps(v, indent=2)] *)

Definition indent (level : nat) : pystr := repeat 32%N (2 * level).

Definition block (opening closing : pychar) (level : nat)
  (parts : list pystr) : pystr :=
  [opening; 10%N] ++ indent (S level)
    ++ join ([44%N; 10%N] ++ indent (S level)) parts
    ++ [10%N] ++ indent level ++ [closing].

Fixpoint dumps_at (level : nat) (v : pyval) {struct v} : result pystr :=
  match v with
  | PNone => Ok (lit "null")
  | PBool true => Ok (lit "true")
  | PBool false => Ok (lit "false")
  | PInt z => Ok (int_repr z)
  | PFloat f => Ok (float_repr f)
  | PStr s => Ok (str_repr s)
  | PList [] => Ok (lit "[]")
  | PList l =>
      let fix items (l : list pyval) : result (list pystr) :=
        match l with
        | [] => Ok []
        | x :: l' =>
            match dumps_at (S level) x with
            | Ok a =>
                match items l' with
                | Ok b => Ok (a :: b)
                | Exception msg => Exception msg
                end
            | Exception msg => Exception msg
            end
        end in
      match items l with
      | Ok parts => Ok (block 91%N 93%N level parts)
      | Exception msg => Exception msg
      end
  | PDict [] => Ok (lit "{}")
  | PDict d =>
      let fix items (d : list (pystr * pyval)) : result (list pystr) :=
        match d with
        | [] => Ok []
        | (k, x) :: d' =>
            match dumps_at (S level) x with
            | Ok a =>
                match items d' with
                | Ok b => Ok ((str_repr k ++ lit ": " ++ a) :: b)
                | Exception msg => Exception msg
                end
            | Exception msg => Exception msg
            end
        end in
      match items d with
      | Ok parts => Ok (block 123%N 125%N level parts)
      | Exception msg => Exception msg
      end
  | PObject r =>
      Exception (lit "Object of type " ++ r ++ lit " is not JSON serializable")
  end.

Definition dumps (v : pyval) : result pystr := dumps_at 0 v.

(** ** [json.loads] *)














End Json.

(* ================================================================== *)
(** * The form: widgets and buttons *)
(* ================================================================== *)

(** The options of the three select boxes. *)
Inductive content_kind :=
| ProductLaunch | ServiceDescription | BlogPost | EmailCampaign
| SocialMedia | WebsiteCopy | Advertisement | PressRelease.

Inductive format_kind := table | paragraph | bullet_points.

Inductive tone_kind := professional | friendly | conversational | persuasive.

(** An uploaded file: [file.name], [file.type], and the bytes that
    [file.read()] returns. *)
Record UploadedFile := {
  name : pystr;
  type : pystr;
  bytes : list Byte.byte
}.

(** The buttons whose return value the script tests.  A click on a
    button re-executes the script; [st.button] returns [True] in that
    execution only, and only for the button that was clicked. *)
Inductive button :=
| SaveBrandGuidelines
| GenerateCopy
| ExportCopyHistory
| ClearHistory
| ConfirmClearHistory.

Definition button_eqb (a b : button) : bool :=
  match a, b with
  | SaveBrandGuidelines, SaveBrandGuidelines
  | GenerateCopy, GenerateCopy
  | ExportCopyHistory, ExportCopyHistory
  | ClearHistory, ClearHistory
  | ConfirmClearHistory, ConfirmClearHistory => true
  | _, _ => false
  end.

(** The values of the input widgets during one execution, and the
    button whose click triggered it ([None]: any other interaction). *)
Record form := {
  form_brand_name : pystr;
  form_selected_tones : list pystr;
  form_key_messages : pystr;
  form_avoid_words : pystr;
  form_prefer_words : pystr;
  form_target_audience : pystr;
  form_content_type : content_kind;
  form_text_input : pystr;
  form_uploaded_files : list UploadedFile;
  form_context : pystr;
  form_reference_copies : pystr;
  form_format_type : format_kind;
  form_min_length : Z;
  form_max_length : Z;
  form_columns_input : pystr;
  form_copy_tone : tone_kind;
  form_cta_required : bool;
  clicked : option button
}.

(** [st.button(b)] *)
Definition st_button (f : form) (b : button) : bool :=
  match clicked f with
  | Some b' => button_eqb b b'
  | None => false
  end.

(* ================================================================== *)
(** * Records exchanged with the agent framework *)
(* ================================================================== *)

Record BrandGuidelines := {
  brand_name : pystr;
  tone_of_voice : list pystr;
  key_messaging : list pystr;
  avoid_words : list pystr;
  preferred_words : list pystr;
  style_rules : pydict pystr;
  target_audience : pystr
}.

Record CopyConstraints := {
  max_length : Z;
  min_length : Z;
  format_type : format_kind;
  required_columns : list pystr;
  tone : tone_kind;
  call_to_action_required : bool
}.

(** One entry of the [file_data] dict. *)
Record FileEntry := {
  file_type : pystr;
  file_size : Z;
  file_content : list Byte.byte
}.

(** The [input_data] dict of a request. *)
Record InputData := {
  main_content : pystr;
  files : pydict FileEntry;
  input_content_type : content_kind
}.

Record CopyRequest := {
  content_type : content_kind;
  input_data : InputData;
  target_format : CopyConstraints;
  context : pystr;
  reference_copies : option (list pystr)
}.

(** [agent.get_performance_metrics()] *)
Record Metrics := {
  total_copies_generated : Z;
  average_compliance_score : float;
  average_word_count : float;
  recent_copies : Z
}.

(* ================================================================== *)
(** * The script *)
(* ================================================================== *)

Section CopyBot.

(** ** What the script takes from its libraries *)

(** [pandas.DataFrame] and [str(df)]. *)
Variable DataFrame : Type.
Variable df_str : DataFrame -> pystr.

(** [datetime.datetime] and [ts.isoformat()]. *)
Variable datetime : Type.
Variable isoformat : datetime -> pystr.

(** [s.lower()], Unicode-aware. *)
Variable lower : pystr -> pystr.

(** [json.dumps(v, indent=2)], which raises on a value it cannot
    serialise, and [json.loads(s)]. *)
Variable json_dumps : pyval -> result pystr.
Variable json_loads : pystr -> option pyval.

(** ** GeneratedCopy *)

(** [content] is a [DataFrame] or something shown through [str]. *)
Inductive copy_content :=
| Tabular (df : DataFrame)
| Plain (s : pystr).

(** A record is a value here: the script only reads the records the
    agent returned. *)
Record GeneratedCopy := {
  content : copy_content;
  word_count : Z;
  compliance_score : float;
  timestamp : datetime;
  request_id : pystr;
  metadata : pydict pyval
}.

(** [str(copy.content)] *)
Definition content_str (c : copy_content) : pystr :=
  match c with
  | Tabular df => df_str df
  | Plain s => s
  end.

(** ** The agent framework *)

(** The private state of a [MultiModalCopyAgent] object, its
    constructor and its two methods.  A method may update the private
    state whether it returns or raises. *)
Variable AgentMem : Type.
Variable agent_init : BrandGuidelines -> AgentMem.
Variable agent_generate_copy :
  AgentMem -> CopyRequest -> AgentMem * result GeneratedCopy.
Variable agent_get_performance_metrics :
  AgentMem -> AgentMem * result Metrics.

(** The exception that rendering a result raises, if any (a missing
    spreadsheet writer in [to_excel], a malformed [timestamp]). *)
Variable display_error : GeneratedCopy -> option pystr.

(** The exception that drawing the input widgets of the "Generate Copy"
    tab raises, if any ([st.number_input] rejects a default [value]
    below its [min_value]). *)
Variable widget_error : form -> option pystr.

(** ** Session state, store and trace *)

(** A reference to an agent object. *)
Definition handle := nat.

(** [st.session_state] *)
Record session_state := {
  agent : option handle;
  copy_history : list GeneratedCopy;
  brand_guidelines : option BrandGuidelines
}.

(** An agent object: the guidelines its constructor received and its
    private state. *)
Record agent_object := {
  guidelines : BrandGuidelines;
  mem : AgentMem
}.

Inductive download :=
| DownloadHistoryJSON
| ExportBrandGuidelines.

(** What an execution shows and which calls it makes, in order. *)
Inductive event :=
| st_error_ev (msg : pystr)
| st_warning_ev (msg : pystr)
| st_success_ev (msg : pystr)
| st_info_ev (msg : pystr)
| displayed (c : GeneratedCopy)
| recent_copies_shown (l : list GeneratedCopy)
| download_button (what : download) (data : pystr)
| constructed (h : handle) (bg : BrandGuidelines)
| generate_called (h : handle) (request : CopyRequest) (r : result GeneratedCopy)
| metrics_called (h : handle) (r : result Metrics)
| uncaught (msg : pystr).

Record world := {
  session : session_state;
  store : list agent_object;
  trace : list event
}.

(** Session state at the first execution (lines 61-66). *)
Definition initial_session : session_state :=
  {| agent := None; copy_history := []; brand_guidelines := None |}.

Definition initial_world : world :=
  {| session := initial_session; store := []; trace := [] |}.

(** ** Executions *)

(** How a piece of the script ends: it returns, it raises an
    [Exception], or it calls [st.rerun()]. *)
Inductive outcome (A : Type) : Type :=
| Returned (a : A)
| Raised (msg : pystr)
| Rerun.
Arguments Raised {A} msg.
Arguments Rerun {A}.

Definition script (A : Type) : Type := world -> outcome A * world.

Definition ret {A} (a : A) : script A := fun w => (Returned a, w).

Definition bind {A B} (c : script A) (k : A -> script B) : script B :=
  fun w =>
    match c w with
    | (Returned a, w') => k a w'
    | (Raised msg, w') => (Raised msg, w')
    | (Rerun, w') => (Rerun, w')
    end.

Notation "x <- c ;; k" := (bind c (fun x => k))
  (at level 61, c at next level, right associativity).
Notation "c ;; k" := (bind c (fun _ => k))
  (at level 61, right associativity).

Definition raise {A} (msg : pystr) : script A := fun w => (Raised msg, w).

Definition st_rerun {A} : script A := fun w => (Rerun, w).

(** [try: body except Exception as e: handler(str(e))] *)
Definition try_except {A} (body : script A) (handler : pystr -> script A)
  : script A :=
  fun w =>
    match body w with
    | (Raised msg, w') => handler msg w'
    | r => r
    end.

Definition get_session : script session_state :=
  fun w => (Returned (session w), w).

Definition put_session (s : session_state) : script unit :=
  fun w => (Returned tt, {| session := s; store := store w; trace := trace w |}).

Definition emit (e : event) : script unit :=
  fun w => (Returned tt,
            {| session := session w; store := store w; trace := trace w ++ [e] |}).

Definition st_error (msg : pystr) : script unit := emit (st_error_ev msg).
Definition st_warning (msg : pystr) : script unit := emit (st_warning_ev msg).
Definition st_success (msg : pystr) : script unit := emit (st_success_ev msg).
Definition st_info (msg : pystr) : script unit := emit (st_info_ev msg).

(** Replace the private state of the object behind [h]. *)
Fixpoint store_update (h : handle) (m : AgentMem) (s : list agent_object)
  : list agent_object :=
  match s, h with
  | [], _ => []
  | o :: s', O => {| guidelines := guidelines o; mem := m |} :: s'
  | o :: s', S h' => o :: store_update h' m s'
  end.

Definition set_mem (h : handle) (m : AgentMem) : script unit :=
  fun w => (Returned tt,
            {| session := session w;
               store := store_update h m (store w);
               trace := trace w |}).

Definition lookup (h : handle) : script agent_object :=
  fun w =>
    match nth_error (store w) h with
    | Some o => (Returned o, w)
    | None => (Raised (lit "dangling agent reference"), w)
    end.

(** [MultiModalCopyAgent(brand_guidelines)]: a new object. *)
Definition new_agent (bg : BrandGuidelines) : script handle :=
  fun w =>
    let h := List.length (store w) in
    (Returned h,
     {| session := session w;
        store := store w ++ [{| guidelines := bg; mem := agent_init bg |}];
        trace := trace w ++ [constructed h bg] |}).

(** [st.session_state.agent.generate_copy(request)] *)
Definition call_generate_copy (request : CopyRequest) : script GeneratedCopy :=
  s <- get_session ;;
  match agent s with
  | None => raise (lit "'NoneType' object has no attribute 'generate_copy'")
  | Some h =>
      o <- lookup h ;;
      let (m, r) := agent_generate_copy (mem o) request in
      set_mem h m ;;
      emit (generate_called h request r) ;;
      match r with
      | Ok c => ret c
      | Exception msg => raise msg
      end
  end.

(** [st.session_state.agent.get_performance_metrics()] *)
Definition call_get_performance_metrics (h : handle) : script Metrics :=
  o <- lookup h ;;
  let (m, r) := agent_get_performance_metrics (mem o) in
  set_mem h m ;;
  emit (metrics_called h r) ;;
  match r with
  | Ok x => ret x
  | Exception msg => raise msg
  end.

(** ** [initialize_agent] (lines 68-71) *)

Definition initialize_agent (bg : BrandGuidelines) : script unit :=
  h <- new_agent bg ;;
  s <- get_session ;;
  put_session {| agent := Some h;
                 copy_history := copy_history s;
                 brand_guidelines := brand_guidelines s |} ;;
  s <- get_session ;;
  put_session {| agent := agent s;
                 copy_history := copy_history s;
                 brand_guidelines := Some bg |}.

(** ** The list comprehensions of the forms *)

(** Lines 97-103, for both word lists: the raw text is split on
    commas; [[word.strip().lower() for word in words if word.strip()]]. *)
Definition word_list (raw : pystr) : list pystr :=
  flat_map (fun word => if truthy (strip word) then [lower (strip word)] else [])
           (split comma raw).

(** Lines 93-94 and 197: one item per line. *)
Definition lines_list (raw : pystr) : list pystr :=
  stripped_nonblank (split newline raw).

(** Line 255: the [reference_copies] argument of the request. *)
Definition reference_list (reference_copies : pystr) : option (list pystr) :=
  if truthy reference_copies
  then Some (stripped_nonblank (split newline reference_copies))
  else None.

(** Lines 223-231: the [file_data] dict. *)
Definition read_files (uploaded_files : list UploadedFile) : pydict FileEntry :=
  fold_left
    (fun file_data file =>
       dict_set (name file)
                {| file_type := type file;
                   file_size := Z.of_nat (List.length (bytes file));
                   file_content := bytes file |}
                file_data)
    uploaded_files [].

(** Lines 233-256: the request built from the arguments of
    [generate_copy]. *)
Definition build_request
  (content_type : content_kind) (text_input : pystr)
  (uploaded_files : list UploadedFile) (context reference_copies : pystr)
  (format_type : format_kind) (min_length max_length : Z)
  (required_columns : list pystr) (copy_tone : tone_kind)
  (cta_required : bool) : CopyRequest :=
  let file_data := read_files uploaded_files in
  let constraints :=
    Build_CopyConstraints max_length min_length format_type
                          required_columns copy_tone cta_required in
  let input_data := Build_InputData text_input file_data content_type in
  Build_CopyRequest content_type input_data constraints context
                    (reference_list reference_copies).

(** ** [display_generated_copy] (lines 270-308) *)

(** The widgets it draws are not modelled one by one: the trace
    records that the result was shown, or the exception carries on. *)
Definition display_generated_copy (result : GeneratedCopy) : script unit :=
  match display_error result with
  | Some msg => raise msg
  | None => emit (displayed result)
  end.

(** ** [generate_copy] (lines 212-268) *)

Definition append_history (result : GeneratedCopy) : script unit :=
  s <- get_session ;;
  put_session {| agent := agent s;
                 copy_history := copy_history s ++ [result];
                 brand_guidelines := brand_guidelines s |}.

Definition generate_copy
  (content_type : content_kind) (text_input : pystr)
  (uploaded_files : list UploadedFile) (context reference_copies : pystr)
  (format_type : format_kind) (min_length max_length : Z)
  (required_columns : list pystr) (copy_tone : tone_kind)
  (cta_required : bool) : script unit :=
  if negb (truthy (strip text_input)) then
    st_error (lit "Please provide main content/description.")
  else
    try_except
      (let request :=
         build_request content_type text_input uploaded_files context
                       reference_copies format_type min_length max_length
                       required_columns copy_tone cta_required in
       result <- call_generate_copy request ;;
       append_history result ;;
       display_generated_copy result)
      (fun e => st_error (lit "Error generating copy: " ++ e)).

(** ** [generate_copy_interface] (lines 144-210) *)

Definition generate_copy_interface (f : form) : script unit :=
  let required_columns :=
    match form_format_type f with
    | table => lines_list (form_columns_input f)
    | _ => []
    end in
  match widget_error f with
  | Some msg => raise msg
  | None =>
      if st_button f GenerateCopy then
        generate_copy (form_content_type f) (form_text_input f)
                      (form_uploaded_files f) (form_context f)
                      (form_reference_copies f) (form_format_type f)
                      (form_min_length f) (form_max_length f)
                      required_columns (form_copy_tone f) (form_cta_required f)
      else ret tt
  end.

(** ** [copy_history_interface] (lines 310-345) *)

(** [l[-n:]] *)
Definition last_n {A} (n : nat) (l : list A) : list A :=
  skipn (List.length l - n) l.

Definition copy_history_interface : script unit :=
  s <- get_session ;;
  match copy_history s with
  | [] => st_info (lit "No copies generated yet. Go to the 'Generate Copy' tab to create your first copy!")
  | _ => emit (recent_copies_shown (rev (last_n 10 (copy_history s))))
  end.

(** ** [analytics_interface] (lines 347-398) *)

(** The charts are not modelled; the call to the agent is. *)
Definition analytics_interface : script unit :=
  s <- get_session ;;
  match copy_history s with
  | [] => st_info (lit "Generate some copies first to see analytics!")
  | _ =>
      match agent s with
      | Some h => _ <- call_get_performance_metrics h ;; ret tt
      | None => ret tt
      end
  end.

(** ** [settings_interface] (lines 400-464) *)

(** Lines 412-420: the document handed to [json.dumps]. *)
Definition export_entry (copy : GeneratedCopy) : pyval :=
  PDict [ (lit "timestamp", PStr (isoformat (timestamp copy)));
          (lit "content", PStr (content_str (content copy)));
          (lit "word_count", PInt (word_count copy));
          (lit "compliance_score", PFloat (compliance_score copy));
          (lit "metadata", PDict (metadata copy)) ].

Definition export_data (history : list GeneratedCopy) : pyval :=
  PList (map export_entry history).

(** [dataclasses.asdict] on the guidelines. *)
Definition asdict (bg : BrandGuidelines) : pyval :=
  PDict [ (lit "brand_name", PStr (brand_name bg));
          (lit "tone_of_voice", PList (map PStr (tone_of_voice bg)));
          (lit "key_messaging", PList (map PStr (key_messaging bg)));
          (lit "avoid_words", PList (map PStr (avoid_words bg)));
          (lit "preferred_words", PList (map PStr (preferred_words bg)));
          (lit "style_rules",
            PDict (map (fun kv => (fst kv, PStr (snd kv))) (style_rules bg)));
          (lit "target_audience", PStr (target_audience bg)) ].

(** [st.download_button(..., json.dumps(v, indent=2), ...)] *)
Definition download_json (what : download) (v : pyval) : script unit :=
  match json_dumps v with
  | Ok json_data => emit (download_button what json_data)
  | Exception msg => raise msg
  end.

(** Lines 410-430. *)
Definition export_copy_history (f : form) : script unit :=
  if st_button f ExportCopyHistory then
    s <- get_session ;;
    match copy_history s with
    | [] => st_info (lit "No copy history to export.")
    | _ => download_json DownloadHistoryJSON (export_data (copy_history s))
    end
  else ret tt.

(** Lines 433-437. *)
Definition clear_history (f : form) : script unit :=
  if st_button f ClearHistory then
    if st_button f ConfirmClearHistory then
      s <- get_session ;;
      put_session {| agent := agent s;
                     copy_history := [];
                     brand_guidelines := brand_guidelines s |} ;;
      st_success (lit "History cleared!") ;;
      st_rerun
    else ret tt
  else ret tt.

(** Lines 440-448. *)
Definition export_brand_guidelines : script unit :=
  s <- get_session ;;
  match brand_guidelines s with
  | Some bg => download_json ExportBrandGuidelines (asdict bg)
  | None => ret tt
  end.

Definition settings_interface (f : form) : script unit :=
  export_copy_history f ;;
  clear_history f ;;
  export_brand_guidelines.

(** ** [main] (lines 73-142) *)

Definition warning_sign : pystr := [9888; 65039]%N.

Definition main (f : form) : script unit :=
  let brand_name := form_brand_name f in
  let selected_tones := form_selected_tones f in
  let key_messages := lines_list (form_key_messages f) in
  let avoid_words := word_list (form_avoid_words f) in
  let prefer_words := word_list (form_prefer_words f) in
  let target_audience := form_target_audience f in
  (if st_button f SaveBrandGuidelines then
     let brand_guidelines :=
       Build_BrandGuidelines brand_name selected_tones key_messages
         avoid_words prefer_words
         [(lit "max_sentence_length", lit "20 words")]
         target_audience in
     initialize_agent brand_guidelines ;;
     st_success (lit "Brand guidelines saved!")
   else ret tt) ;;
  s <- get_session ;;
  match agent s with
  | None =>
      st_warning (warning_sign ++ lit " Please configure and save your brand guidelines in the sidebar first.")
  | Some _ =>
      generate_copy_interface f ;;
      copy_history_interface ;;
      analytics_interface ;;
      settings_interface f
  end.

(** ** One execution of the script, and a session *)

(** The same widget values, with another trigger. *)
Definition with_click (c : option button) (f : form) : form :=
  {| form_brand_name := form_brand_name f;
     form_selected_tones := form_selected_tones f;
     form_key_messages := form_key_messages f;
     form_avoid_words := form_avoid_words f;
     form_prefer_words := form_prefer_words f;
     form_target_audience := form_target_audience f;
     form_content_type := form_content_type f;
     form_text_input := form_text_input f;
     form_uploaded_files := form_uploaded_files f;
     form_context := form_context f;
     form_reference_copies := form_reference_copies f;
     form_format_type := form_format_type f;
     form_min_length := form_min_length f;
     form_max_length := form_max_length f;
     form_columns_input := form_columns_input f;
     form_copy_tone := form_copy_tone f;
     form_cta_required := form_cta_required f;
     clicked := c |}.

(** An exception that reaches the top is shown and ends the execution;
    the session state stays as the execution left it. *)
Definition finish (r : outcome unit * world) : world :=
  match r with
  | (Raised msg, w) =>
      {| session := session w; store := store w;
         trace := trace w ++ [uncaught msg] |}
  | (_, w) => w
  end.

(** [st.rerun()] abandons the execution and starts another one, in
    which no button reports a click. *)
Definition execute (f : form) (w : world) : world :=
  match main f w with
  | (Rerun, w') => finish (main (with_click None f) w')
  | r => finish r
  end.

(** A session: the executions triggered by a sequence of interactions. *)
Definition run (fs : list form) (w : world) : world :=
  fold_left (fun w f => execute f w) fs w.

(** The results of the successful calls to [generate_copy], in call
    order. *)
Definition generated (t : list event) : list GeneratedCopy :=
  flat_map (fun e => match e with
                     | generate_called _ _ (Ok c) => [c]
                     | _ => []
                     end) t.

(** The agent references through which [generate_copy] was called, in
    call order. *)
Definition generate_handles (t : list event) : list handle :=
  flat_map (fun e => match e with
                     | generate_called h _ _ => [h]
                     | _ => []
                     end) t.

(** The record built at lines 112-120 from the sidebar. *)
Definition sidebar_guidelines (f : form) : BrandGuidelines :=
  Build_BrandGuidelines (form_brand_name f) (form_selected_tones f)
    (lines_list (form_key_messages f))
    (word_list (form_avoid_words f)) (word_list (form_prefer_words f))
    [(lit "max_sentence_length", lit "20 words")]
    (form_target_audience f).

(** ** The word lists as the specification words them *)

(** Splitting at every character that satisfies [p]. *)
Fixpoint split_where (p : pychar -> bool) (s : pystr) : list pystr :=
  match s with
  | [] => [[]]
  | c :: s' =>
      if p c then [] :: split_where p s'
      else match split_where p s' with
           | [] => [[c]]
           | w :: ws => (c :: w) :: ws
           end
  end.

(** "Split on commas/newlines, trimmed, lowercased, empty tokens
    dropped." *)
Definition spec_word_list (raw : pystr) : list pystr :=
  filter truthy
    (map (fun token => lower (strip token))
         (split_where (fun c => (c =? comma)%N || (c =? newline)%N) raw)).

(* ================================================================== *)
(** * Facts about strings *)
(* ================================================================== *)

Lemma lstrip_blank s : blank s = true -> lstrip s = [].
Proof.
  induction s as [|c s IH]; simpl; [reflexivity|].
  intros H. apply andb_true_iff in H as [Hc Hs].
  rewrite Hc. auto.
Qed.

Lemma lstrip_nil_blank s : lstrip s = [] -> blank s = true.
Proof.
  induction s as [|c s IH]; simpl; [reflexivity|].
  destruct (isspace c); [auto | discriminate].
Qed.

Lemma strip_blank s : blank s = true -> strip s = [].
Proof.
  intros H. unfold strip. rewrite (lstrip_blank s H). reflexivity.
Qed.

Lemma rstrip_nil s : rstrip s = [] -> blank s = true.
Proof.
  unfold rstrip. intros H.
  assert (Hr : lstrip (rev s) = []).
  { rewrite <- (rev_involutive (lstrip (rev s))), H. reflexivity. }
  apply lstrip_nil_blank in Hr. unfold blank in *.
  rewrite forallb_forall in *. intros x Hx. apply Hr.
  now apply in_rev in Hx.
Qed.

Lemma lstrip_suffix s : exists p, s = p ++ lstrip s /\ blank p = true.
Proof.
  induction s as [|c s [p [Hp Hb]]]; simpl.
  - exists []. auto.
  - destruct (isspace c) eqn:Hc.
    + exists (c :: p). simpl. rewrite Hc, Hb. split; [congruence | reflexivity].
    + exists []. auto.
Qed.

Lemma strip_nil_blank s : strip s = [] -> blank s = true.
Proof.
  unfold strip. intros H. apply rstrip_nil in H.
  destruct (lstrip_suffix s) as [p [Hp Hb]].
  rewrite Hp. unfold blank in *. rewrite forallb_app, Hb, H. reflexivity.
Qed.

(** [not s.strip()] holds exactly for the whitespace-only strings. *)
Lemma strip_truthy_blank s : truthy (strip s) = negb (blank s).
Proof.
  destruct (blank s) eqn:Hb.
  - rewrite (strip_blank s Hb). reflexivity.
  - destruct (strip s) eqn:Hs; [|reflexivity].
    apply strip_nil_blank in Hs. congruence.
Qed.

Lemma split_not_nil sep s : split sep s <> [].
Proof.
  destruct s as [|c s]; simpl; [discriminate|].
  destruct (c =? sep)%N; [discriminate|].
  destruct (split sep s); discriminate.
Qed.

(** The pieces of a split, joined by the separator, give the string
    back: nothing but separators is lost. *)
Lemma concat_split sep s : join [sep] (split sep s) = s.
Proof.
  induction s as [|c s IH]; simpl; [reflexivity|].
  destruct (N.eqb_spec c sep) as [->|Hne].
  - destruct (split sep s) as [|w ws] eqn:Hs.
    + now apply split_not_nil in Hs.
    + simpl in *. now rewrite IH.
  - destruct (split sep s) as [|w ws] eqn:Hs.
    + now apply split_not_nil in Hs.
    + destruct ws; simpl in *; now rewrite <- IH.
Qed.

(** Every piece of a whitespace-only string is whitespace-only. *)
Lemma split_blank sep s :
  blank s = true -> forall w, In w (split sep s) -> blank w = true.
Proof.
  induction s as [|c s IH]; simpl.
  - intros _ w [<-|[]]. reflexivity.
  - intros H. apply andb_true_iff in H as [Hc Hs].
    destruct (c =? sep)%N.
    + intros w [<-|Hw]; [reflexivity | now apply IH].
    + destruct (split sep s) as [|w0 ws] eqn:Hsp.
      * intros w [<-|[]]. simpl. now rewrite Hc.
      * intros w [<-|Hw].
        -- simpl. rewrite Hc. apply IH; [assumption | now left].
        -- apply IH; [assumption | now right].
Qed.

(** No piece of a split contains the separator. *)
Lemma split_no_sep sep s :
  forall w, In w (split sep s) -> ~ In sep w.
Proof.
  induction s as [|c s IH]; simpl.
  - intros w [<-|[]] [].
  - destruct (N.eqb_spec c sep) as [->|Hne].
    + intros w [<-|Hw]; [intros [] | now apply IH].
    + destruct (split sep s) as [|w0 ws] eqn:Hsp.
      * intros w [<-|[]] [H|[]]. congruence.
      * intros w [<-|Hw].
        -- intros [H|H]; [congruence|]. apply (IH w0); [now left | assumption].
        -- apply IH. now right.
Qed.

Lemma stripped_nonblank_filter xs :
  stripped_nonblank xs = map strip (filter (fun x => negb (blank x)) xs).
Proof.
  unfold stripped_nonblank.
  induction xs as [|x xs IH]; simpl; [reflexivity|].
  rewrite strip_truthy_blank, IH.
  destruct (blank x); reflexivity.
Qed.

Lemma stripped_nonblank_all_blank xs :
  (forall x, In x xs -> blank x = true) -> stripped_nonblank xs = [].
Proof.
  unfold stripped_nonblank.
  induction xs as [|x xs IH]; simpl; [reflexivity|].
  intros H. rewrite strip_truthy_blank, (H x (or_introl eq_refl)). simpl.
  apply IH. intros y Hy. apply H. now right.
Qed.

(* ================================================================== *)
(** * The request builder *)
(* ================================================================== *)

Lemma reference_list_none refs : reference_list refs = None <-> refs = [].
Proof.
  unfold reference_list. destruct refs; simpl; split; congruence.
Qed.

Lemma reference_list_some refs :
  refs <> [] ->
  reference_list refs =
    Some (map strip (filter (fun l => negb (blank l)) (split newline refs))).
Proof.
  intros H. unfold reference_list.
  destruct refs; [congruence|]. simpl truthy. cbv iota.
  now rewrite stripped_nonblank_filter.
Qed.

Lemma reference_list_blank refs :
  refs <> [] -> blank refs = true -> reference_list refs = Some [].
Proof.
  intros H Hb. unfold reference_list.
  destruct refs; [congruence|]. simpl truthy. cbv iota.
  rewrite stripped_nonblank_all_blank; [reflexivity|].
  now apply split_blank.
Qed.

(** C10. The [reference_copies] field of the request that
    [generate_copy] builds is [None] exactly when the reference text is
    the empty string; for a non-empty text of whitespace only it is the
    empty list; and for every non-empty text it is the list, in order,
    of the lines that are not blank, each one stripped. *)
Theorem request_reference_copies :
  forall content_type text_input uploaded_files context refs format_type
         min_length max_length required_columns copy_tone cta_required,
    let request :=
      build_request content_type text_input uploaded_files context refs
                    format_type min_length max_length required_columns
                    copy_tone cta_required in
    (reference_copies request = None <-> refs = []) /\
    (refs <> [] -> blank refs = true -> reference_copies request = Some []) /\
    (refs <> [] ->
     reference_copies request =
       Some (map strip (filter (fun l => negb (blank l)) (split newline refs)))).
Proof.
  intros. subst request. unfold build_request. cbn [reference_copies].
  split; [apply reference_list_none|].
  split; [apply reference_list_blank | apply reference_list_some].
Qed.

(* ================================================================== *)
(** * The word lists *)
(* ================================================================== *)

Lemma word_list_filter raw :
  word_list raw =
    map (fun token => lower (strip token))
        (filter (fun token => negb (blank token)) (split comma raw)).
Proof.
  unfold word_list.
  induction (split comma raw) as [|t ts IH]; simpl; [reflexivity|].
  rewrite strip_truthy_blank, IH.
  destruct (blank t); reflexivity.
Qed.

Lemma split_without_sep sep s : ~ In sep s -> split sep s = [s].
Proof.
  induction s as [|c s IH]; simpl; [reflexivity|].
  intros H. destruct (N.eqb_spec c sep) as [->|Hne].
  - exfalso. apply H. now left.
  - rewrite IH; [reflexivity|]. intros Hs. apply H. now right.
Qed.

(** A text without a comma is one token, whatever else it contains:
    a newline is not a separator. *)
Lemma word_list_single raw :
  ~ In comma raw -> blank raw = false ->
  word_list raw = [lower (strip raw)].
Proof.
  intros Hc Hb.
  rewrite word_list_filter, (@split_without_sep comma raw Hc). simpl.
  now rewrite Hb.
Qed.

(** C6, as the code has it. Each word list is obtained by splitting the
    raw text on commas only; the tokens that are blank are dropped, and
    each remaining token is stripped and then lowercased.  No stored
    word is the image of a token that contains a comma. *)
Theorem word_list_commas :
  forall raw,
    word_list raw =
      map (fun token => lower (strip token))
          (filter (fun token => negb (blank token)) (split comma raw)) /\
    Forall (fun token => ~ In comma token /\ blank token = false)
           (filter (fun token => negb (blank token)) (split comma raw)).
Proof.
  intros raw. split; [apply word_list_filter|].
  apply Forall_forall. intros token Ht.
  apply filter_In in Ht as [Hin Hb]. split.
  - now apply (split_no_sep comma raw).
  - now apply negb_true_iff.
Qed.

(* ================================================================== *)
(** * One call of [generate_copy] *)
(* ================================================================== *)

(** The world after a call of the agent behind [h] that left the
    private state [m] and ended with [r]. *)
Definition after_call (h : handle) (m : AgentMem) (request : CopyRequest)
  (r : result GeneratedCopy) (w : world) : world :=
  {| session := session w;
     store := store_update h m (store w);
     trace := trace w ++ [generate_called h request r] |}.

Lemma bind_returned {A B} (c : script A) (k : A -> script B) w a w' :
  c w = (Returned a, w') -> bind c k w = k a w'.
Proof. intros H. unfold bind. now rewrite H. Qed.

Lemma bind_raised {A B} (c : script A) (k : A -> script B) w msg w' :
  c w = (Raised msg, w') -> bind c k w = (Raised msg, w').
Proof. intros H. unfold bind. now rewrite H. Qed.

Lemma try_except_raised {A} (body : script A) handler w msg w' :
  body w = (Raised msg, w') -> try_except body handler w = handler msg w'.
Proof. intros H. unfold try_except. now rewrite H. Qed.

Lemma call_generate_copy_spec request w h o m r :
  agent (session w) = Some h ->
  nth_error (store w) h = Some o ->
  agent_generate_copy (mem o) request = (m, r) ->
  call_generate_copy request w =
    (match r with
     | Ok c => Returned c
     | Exception msg => Raised msg
     end, after_call h m request r w).
Proof.
  intros Ha Ho Hcall.
  unfold call_generate_copy, bind, get_session, lookup.
  rewrite Ha, Ho, Hcall. unfold set_mem, emit. cbn.
  destruct r; reflexivity.
Qed.

Lemma call_generate_copy_no_agent request w :
  agent (session w) = None ->
  call_generate_copy request w =
    (Raised (lit "'NoneType' object has no attribute 'generate_copy'"), w).
Proof.
  intros Ha. unfold call_generate_copy, bind, get_session.
  rewrite Ha. reflexivity.
Qed.

Lemma call_generate_copy_dangling request w h :
  agent (session w) = Some h ->
  nth_error (store w) h = None ->
  call_generate_copy request w = (Raised (lit "dangling agent reference"), w).
Proof.
  intros Ha Ho. unfold call_generate_copy, bind, get_session, lookup.
  rewrite Ha, Ho. reflexivity.
Qed.

(** C1. When the main content is empty or made of whitespace only,
    [generate_copy] returns after reporting the validation error: the
    session state (the history in it) and the agent objects are as
    before, and the only new entry of the trace is the error message,
    so no call reached the agent. *)
Theorem generate_copy_blank_input :
  forall content_type text_input uploaded_files context reference_copies
         format_type min_length max_length required_columns copy_tone
         cta_required w,
    blank text_input = true ->
    let r := generate_copy content_type text_input uploaded_files context
               reference_copies format_type min_length max_length
               required_columns copy_tone cta_required w in
    fst r = Returned tt /\
    session (snd r) = session w /\
    store (snd r) = store w /\
    trace (snd r) =
      trace w ++ [st_error_ev (lit "Please provide main content/description.")].
Proof.
  intros ct text files ctx refs fmt mn mx cols tn cta w Hb r. subst r.
  unfold generate_copy.
  rewrite strip_truthy_blank, Hb. cbn. auto.
Qed.

(** C2. When the call to the agent returns a [GeneratedCopy], the
    history after [generate_copy] is the history before with the
    returned record added at the end: one entry longer, every earlier
    entry at its index. *)
Theorem generate_copy_success_appends :
  forall content_type text_input uploaded_files context reference_copies
         format_type min_length max_length required_columns copy_tone
         cta_required w h o m result,
    blank text_input = false ->
    agent (session w) = Some h ->
    nth_error (store w) h = Some o ->
    agent_generate_copy (mem o)
      (build_request content_type text_input uploaded_files context
         reference_copies format_type min_length max_length
         required_columns copy_tone cta_required) = (m, Ok result) ->
    let w' := snd (generate_copy content_type text_input uploaded_files
                     context reference_copies format_type min_length
                     max_length required_columns copy_tone cta_required w) in
    copy_history (session w') = copy_history (session w) ++ [result] /\
    List.length (copy_history (session w')) =
      S (List.length (copy_history (session w))) /\
    (forall i c, nth_error (copy_history (session w)) i = Some c ->
                 nth_error (copy_history (session w')) i = Some c) /\
    nth_error (copy_history (session w'))
              (List.length (copy_history (session w))) = Some result.
Proof.
  intros ct text files ctx refs fmt mn mx cols tn cta w h o m result
         Hb Ha Ho Hcall w'.
  assert (Hh : copy_history (session w') = copy_history (session w) ++ [result]).
  { subst w'. unfold generate_copy.
    rewrite strip_truthy_blank, Hb. cbn [negb].
    unfold try_except.
    erewrite bind_returned
      by apply (@call_generate_copy_spec _ _ _ _ _ _ Ha Ho Hcall).
    unfold bind, append_history, get_session, put_session,
      display_generated_copy.
    cbn. destruct (display_error result); reflexivity. }
  rewrite Hh. repeat split.
  - rewrite length_app. cbn. lia.
  - intros i c Hi. rewrite nth_error_app1; [assumption|].
    apply nth_error_Some. congruence.
  - rewrite nth_error_app2, Nat.sub_diag; [reflexivity | lia].
Qed.

(** C4. When the call to the agent raises, [generate_copy] still
    returns normally: the exception is caught by its handler, the
    message is shown as an error, and the session state (agent
    reference, history, guidelines) is the one before the call. *)
Theorem generate_copy_agent_error :
  forall content_type text_input uploaded_files context reference_copies
         format_type min_length max_length required_columns copy_tone
         cta_required w h o m msg,
    blank text_input = false ->
    agent (session w) = Some h ->
    nth_error (store w) h = Some o ->
    let request :=
      build_request content_type text_input uploaded_files context
        reference_copies format_type min_length max_length
        required_columns copy_tone cta_required in
    agent_generate_copy (mem o) request = (m, Exception msg) ->
    let r := generate_copy content_type text_input uploaded_files context
               reference_copies format_type min_length max_length
               required_columns copy_tone cta_required w in
    fst r = Returned tt /\
    session (snd r) = session w /\
    trace (snd r) =
      trace w ++ [generate_called h request (Exception msg);
                  st_error_ev (lit "Error generating copy: " ++ msg)].
Proof.
  intros ct text files ctx refs fmt mn mx cols tn cta w h o m msg
         Hb Ha Ho request Hcall r. subst r.
  unfold generate_copy.
  rewrite strip_truthy_blank, Hb. cbn [negb]. fold request.
  erewrite try_except_raised.
  2:{ eapply bind_raised.
      apply (@call_generate_copy_spec _ _ _ _ _ _ Ha Ho Hcall). }
  unfold st_error, emit, after_call. cbn [fst snd session trace].
  rewrite <- app_assoc. auto.
Qed.

(* ================================================================== *)
(** * What the pieces of the script may change *)
(* ================================================================== *)

(** A piece of the script is [quiet] when it leaves the session state
    alone, keeps every agent object with the guidelines it was built
    from, and only adds to the trace entries that are not calls of
    [generate_copy]. *)
Definition quiet (w w' : world) : Prop :=
  session w' = session w /\
  map guidelines (store w') = map guidelines (store w) /\
  exists new, trace w' = trace w ++ new /\ generate_handles new = [].

(** The tabs [serve] the session: agent reference and guidelines stay,
    the history grows by the results the agent returned, and every
    call of [generate_copy] goes through the agent of the session. *)
Definition serves (w w' : world) : Prop :=
  agent (session w') = agent (session w) /\
  brand_guidelines (session w') = brand_guidelines (session w) /\
  map guidelines (store w') = map guidelines (store w) /\
  exists new,
    trace w' = trace w ++ new /\
    copy_history (session w') = copy_history (session w) ++ generated new /\
    Forall (fun h => agent (session w) = Some h) (generate_handles new).

(** The history only [grows]: by the results the agent returned. *)
Definition grows (w w' : world) : Prop :=
  exists new,
    trace w' = trace w ++ new /\
    copy_history (session w') = copy_history (session w) ++ generated new.

(** [holds R c]: the piece [c] never asks for a rerun, and relates the
    world it starts in to the world it leaves by [R]. *)
Definition holds {A} (R : world -> world -> Prop) (c : script A) : Prop :=
  forall w, fst (c w) <> Rerun /\ R w (snd (c w)).

Lemma generated_app t1 t2 : generated (t1 ++ t2) = generated t1 ++ generated t2.
Proof. apply flat_map_app. Qed.

Lemma generate_handles_app t1 t2 :
  generate_handles (t1 ++ t2) = generate_handles t1 ++ generate_handles t2.
Proof. apply flat_map_app. Qed.

Lemma generated_no_call t : generate_handles t = [] -> generated t = [].
Proof.
  induction t as [|e t IH]; [reflexivity|].
  destruct e; cbn; try assumption; discriminate.
Qed.

Lemma quiet_refl w : quiet w w.
Proof.
  repeat split. exists []. now rewrite app_nil_r.
Qed.

Lemma quiet_trans w1 w2 w3 : quiet w1 w2 -> quiet w2 w3 -> quiet w1 w3.
Proof.
  intros (Hs1 & Hg1 & n1 & Ht1 & Hc1) (Hs2 & Hg2 & n2 & Ht2 & Hc2).
  repeat split; try congruence.
  exists (n1 ++ n2). split.
  - now rewrite Ht2, Ht1, app_assoc.
  - now rewrite generate_handles_app, Hc1, Hc2.
Qed.

Lemma serves_refl w : serves w w.
Proof.
  repeat split. exists []. cbn. rewrite !app_nil_r. auto.
Qed.

Lemma serves_trans w1 w2 w3 : serves w1 w2 -> serves w2 w3 -> serves w1 w3.
Proof.
  intros (Ha1 & Hb1 & Hg1 & n1 & Ht1 & Hh1 & Hc1)
         (Ha2 & Hb2 & Hg2 & n2 & Ht2 & Hh2 & Hc2).
  repeat split; try congruence.
  exists (n1 ++ n2). repeat split.
  - now rewrite Ht2, Ht1, app_assoc.
  - now rewrite Hh2, Hh1, generated_app, app_assoc.
  - rewrite generate_handles_app. apply Forall_app. split; [assumption|].
    rewrite Ha1 in Hc2. assumption.
Qed.

Lemma grows_refl w : grows w w.
Proof. exists []. cbn. now rewrite !app_nil_r. Qed.

Lemma grows_trans w1 w2 w3 : grows w1 w2 -> grows w2 w3 -> grows w1 w3.
Proof.
  intros (n1 & Ht1 & Hh1) (n2 & Ht2 & Hh2).
  exists (n1 ++ n2). split.
  - now rewrite Ht2, Ht1, app_assoc.
  - now rewrite Hh2, Hh1, generated_app, app_assoc.
Qed.

Lemma quiet_serves w w' : quiet w w' -> serves w w'.
Proof.
  intros (Hs & Hg & n & Ht & Hc).
  repeat split; try congruence.
  exists n. repeat split; [assumption | |].
  - rewrite (generated_no_call _ Hc), app_nil_r. congruence.
  - rewrite Hc. constructor.
Qed.

Lemma serves_grows w w' : serves w w' -> grows w w'.
Proof.
  intros (_ & _ & _ & n & Ht & Hh & _). exists n. auto.
Qed.

(** *** Composition *)

Section Holds.

Variable R : world -> world -> Prop.
Hypothesis R_refl : forall w, R w w.
Hypothesis R_trans : forall w1 w2 w3, R w1 w2 -> R w2 w3 -> R w1 w3.

Lemma holds_ret {A} (a : A) : holds R (ret a).
Proof. intros w. cbn. split; [discriminate | apply R_refl]. Qed.

Lemma holds_raise {A} msg : holds R (@raise A msg).
Proof. intros w. cbn. split; [discriminate | apply R_refl]. Qed.

Lemma holds_get_session : holds R get_session.
Proof. intros w. cbn. split; [discriminate | apply R_refl]. Qed.

Lemma holds_bind {A B} (c : script A) (k : A -> script B) :
  holds R c -> (forall a, holds R (k a)) -> holds R (bind c k).
Proof.
  intros Hc Hk w. unfold bind.
  destruct (Hc w) as [Hn Hr]. destruct (c w) as [[a| msg |] w1]; cbn in *.
  - destruct (Hk a w1) as [Hn' Hr']. split; [assumption|].
    eapply R_trans; eassumption.
  - split; [discriminate | assumption].
  - congruence.
Qed.

Lemma holds_try_except {A} (body : script A) handler :
  holds R body -> (forall msg, holds R (handler msg)) ->
  holds R (try_except body handler).
Proof.
  intros Hb Hh w. unfold try_except.
  destruct (Hb w) as [Hn Hr]. destruct (body w) as [[a| msg |] w1]; cbn in *.
  - split; [discriminate | assumption].
  - destruct (Hh msg w1) as [Hn' Hr']. split; [assumption|].
    eapply R_trans; eassumption.
  - congruence.
Qed.

End Holds.

Lemma holds_weaken {A} (R R' : world -> world -> Prop) (c : script A) :
  (forall w w', R w w' -> R' w w') -> holds R c -> holds R' c.
Proof.
  intros HR Hc w. destruct (Hc w). auto.
Qed.

(** *** The quiet pieces *)

Lemma store_update_guidelines h m s :
  map guidelines (store_update h m s) = map guidelines s.
Proof.
  revert h. induction s as [|o s IH]; intros [|h]; cbn; try reflexivity.
  now rewrite IH.
Qed.

Lemma quiet_emit e : generate_handles [e] = [] -> holds quiet (emit e).
Proof.
  intros He w. cbn. split; [discriminate|].
  repeat split. exists [e]. auto.
Qed.

Lemma quiet_set_mem h m : holds quiet (set_mem h m).
Proof.
  intros w. cbn. split; [discriminate|].
  split; [reflexivity|]. split; [apply store_update_guidelines|].
  exists []. now rewrite app_nil_r.
Qed.

Lemma quiet_lookup h : holds quiet (lookup h).
Proof.
  intros w. unfold lookup.
  destruct (nth_error (store w) h); cbn; (split; [discriminate | apply quiet_refl]).
Qed.

Ltac quiet_step :=
  first
    [ apply (holds_bind quiet_trans); [ | intros ? ]
    | apply (holds_ret _ quiet_refl)
    | apply (holds_raise _ quiet_refl)
    | apply (holds_get_session _ quiet_refl)
    | apply quiet_set_mem
    | apply quiet_lookup
    | apply quiet_emit; reflexivity ].

Lemma quiet_call_get_performance_metrics h :
  holds quiet (call_get_performance_metrics h).
Proof.
  unfold call_get_performance_metrics.
  quiet_step; [quiet_step|].
  destruct (agent_get_performance_metrics (mem a)) as [m r].
  repeat quiet_step. destruct r; quiet_step.
Qed.

Lemma quiet_download_json what v : holds quiet (download_json what v).
Proof.
  unfold download_json. destruct (json_dumps v); quiet_step.
Qed.

Lemma quiet_copy_history_interface : holds quiet copy_history_interface.
Proof.
  unfold copy_history_interface, st_info.
  quiet_step; [quiet_step|].
  destruct (copy_history a); quiet_step.
Qed.

Lemma quiet_analytics_interface : holds quiet analytics_interface.
Proof.
  unfold analytics_interface, st_info.
  quiet_step; [quiet_step|].
  destruct (copy_history a); [quiet_step|].
  destruct (agent a); [|quiet_step].
  quiet_step; [apply quiet_call_get_performance_metrics | quiet_step].
Qed.

Lemma quiet_export_copy_history f : holds quiet (export_copy_history f).
Proof.
  unfold export_copy_history, st_info.
  destruct (st_button f ExportCopyHistory); [|quiet_step].
  quiet_step; [quiet_step|].
  destruct (copy_history a); [quiet_step | apply quiet_download_json].
Qed.

(** A click triggers one execution, in which one button reports it. *)
Lemma st_button_exclusive f a b :
  st_button f a = true -> st_button f b = true -> a = b.
Proof.
  unfold st_button. destruct (clicked f) as [c|]; [|discriminate].
  destruct a, b, c; cbn; congruence.
Qed.

(** The assignment of line 435 is never executed: its two tests cannot
    both succeed in one execution. *)
Lemma quiet_clear_history f : holds quiet (clear_history f).
Proof.
  unfold clear_history.
  destruct (st_button f ClearHistory) eqn:Hc; [|quiet_step].
  destruct (st_button f ConfirmClearHistory) eqn:Hk; [|quiet_step].
  discriminate (st_button_exclusive _ _ _ Hc Hk).
Qed.

Lemma quiet_export_brand_guidelines : holds quiet export_brand_guidelines.
Proof.
  unfold export_brand_guidelines.
  quiet_step; [quiet_step|].
  destruct (brand_guidelines a); [apply quiet_download_json | quiet_step].
Qed.

Lemma quiet_settings_interface f : holds quiet (settings_interface f).
Proof.
  unfold settings_interface.
  quiet_step; [apply quiet_export_copy_history|].
  quiet_step; [apply quiet_clear_history | apply quiet_export_brand_guidelines].
Qed.

(** *** [generate_copy] serves the session *)

Lemma serves_call_and_append request :
  holds serves
    (bind (call_generate_copy request)
          (fun result =>
             bind (append_history result)
                  (fun _ => display_generated_copy result))).
Proof.
  intros w.
  destruct (agent (session w)) as [h|] eqn:Ha.
  2:{ erewrite bind_raised by now apply call_generate_copy_no_agent.
      split; [discriminate | apply serves_refl]. }
  destruct (nth_error (store w) h) as [o|] eqn:Ho.
  2:{ erewrite bind_raised by now apply (call_generate_copy_dangling _ _ Ha).
      split; [discriminate | apply serves_refl]. }
  destruct (agent_generate_copy (mem o) request) as [m [c|msg]] eqn:Hcall.
  - erewrite bind_returned
      by apply (@call_generate_copy_spec _ _ _ _ _ _ Ha Ho Hcall).
    unfold bind, append_history, get_session, put_session,
      display_generated_copy, after_call, raise, emit.
    destruct (display_error c); cbn.
    + split; [discriminate|]. repeat split; [apply store_update_guidelines|].
      exists [generate_called h request (Ok c)]. cbn. repeat split.
      constructor; [assumption | constructor].
    + split; [discriminate|]. repeat split; [apply store_update_guidelines|].
      exists [generate_called h request (Ok c); displayed c]. cbn.
      rewrite <- app_assoc. repeat split.
      constructor; [assumption | constructor].
  - erewrite bind_raised
      by apply (@call_generate_copy_spec _ _ _ _ _ _ Ha Ho Hcall).
    unfold after_call. cbn.
    split; [discriminate|]. repeat split; [apply store_update_guidelines|].
    exists [generate_called h request (Exception msg)]. cbn.
    rewrite app_nil_r. repeat split.
    constructor; [assumption | constructor].
Qed.

Lemma serves_emit e : generate_handles [e] = [] -> holds serves (emit e).
Proof.
  intros He. eapply holds_weaken; [apply quiet_serves | now apply quiet_emit].
Qed.

Lemma serves_generate_copy
  content_type text_input uploaded_files context reference_copies
  format_type min_length max_length required_columns copy_tone cta_required :
  holds serves
    (generate_copy content_type text_input uploaded_files context
       reference_copies format_type min_length max_length required_columns
       copy_tone cta_required).
Proof.
  unfold generate_copy, st_error.
  destruct (negb (truthy (strip text_input))).
  - now apply serves_emit.
  - apply (holds_try_except serves_trans).
    + apply serves_call_and_append.
    + intros msg. now apply serves_emit.
Qed.

Lemma serves_generate_copy_interface f :
  holds serves (generate_copy_interface f).
Proof.
  unfold generate_copy_interface.
  destruct (widget_error f); [apply (holds_raise _ serves_refl)|].
  destruct (st_button f GenerateCopy).
  - apply serves_generate_copy.
  - apply (holds_ret _ serves_refl).
Qed.

Lemma quiet_generate_copy_interface f :
  st_button f GenerateCopy = false -> holds quiet (generate_copy_interface f).
Proof.
  intros H. unfold generate_copy_interface. rewrite H.
  destruct (widget_error f); quiet_step.
Qed.

(** *** [main] *)

(** The four tabs, in the order [main] draws them. *)
Definition tabs (f : form) : script unit :=
  bind (generate_copy_interface f) (fun _ =>
  bind copy_history_interface (fun _ =>
  bind analytics_interface (fun _ =>
  settings_interface f))).

(** Lines 125-142: the part of [main] below the sidebar. *)
Definition main_area (f : form) : script unit :=
  bind get_session (fun s =>
  match agent s with
  | None =>
      st_warning (warning_sign ++ lit " Please configure and save your brand guidelines in the sidebar first.")
  | Some _ => tabs f
  end).

Lemma serves_tabs f : holds serves (tabs f).
Proof.
  unfold tabs.
  apply (holds_bind serves_trans); [apply serves_generate_copy_interface|].
  intros _. eapply holds_weaken; [apply quiet_serves|].
  quiet_step; [apply quiet_copy_history_interface|].
  quiet_step; [apply quiet_analytics_interface | apply quiet_settings_interface].
Qed.

Lemma quiet_tabs f : st_button f GenerateCopy = false -> holds quiet (tabs f).
Proof.
  intros H. unfold tabs.
  quiet_step; [now apply quiet_generate_copy_interface|].
  quiet_step; [apply quiet_copy_history_interface|].
  quiet_step; [apply quiet_analytics_interface | apply quiet_settings_interface].
Qed.

Lemma serves_main_area f : holds serves (main_area f).
Proof.
  unfold main_area, st_warning.
  apply (holds_bind serves_trans); [apply (holds_get_session _ serves_refl)|].
  intros s. destruct (agent s); [apply serves_tabs | now apply serves_emit].
Qed.

Lemma quiet_main_area f :
  st_button f GenerateCopy = false -> holds quiet (main_area f).
Proof.
  intros H. unfold main_area, st_warning.
  quiet_step; [quiet_step|].
  destruct (agent a); [now apply quiet_tabs | quiet_step].
Qed.

(** The world right after the sidebar saved the guidelines [bg]. *)
Definition saved (bg : BrandGuidelines) (w : world) : world :=
  {| session := {| agent := Some (List.length (store w));
                   copy_history := copy_history (session w);
                   brand_guidelines := Some bg |};
     store := store w ++ [{| guidelines := bg; mem := agent_init bg |}];
     trace := trace w ++ [constructed (List.length (store w)) bg;
                          st_success_ev (lit "Brand guidelines saved!")] |}.

Lemma main_without_save f w :
  st_button f SaveBrandGuidelines = false -> main f w = main_area f w.
Proof.
  intros H. unfold main. rewrite H. reflexivity.
Qed.

Lemma main_with_save f w :
  st_button f SaveBrandGuidelines = true ->
  main f w = main_area f (saved (sidebar_guidelines f) w).
Proof.
  intros H. unfold main. rewrite H.
  unfold bind at 1. unfold bind at 1. unfold bind at 1.
  unfold initialize_agent, bind, new_agent, get_session, put_session,
    st_success, emit, saved, sidebar_guidelines. cbn.
  rewrite <- app_assoc. reflexivity.
Qed.

Lemma main_never_reruns f w : fst (main f w) <> Rerun.
Proof.
  destruct (st_button f SaveBrandGuidelines) eqn:H.
  - rewrite main_with_save by assumption. apply serves_main_area.
  - rewrite main_without_save by assumption. apply serves_main_area.
Qed.

(** *** [execute] *)

Lemma execute_finish f w : execute f w = finish (main f w).
Proof.
  unfold execute. pose proof (main_never_reruns f w) as H.
  destruct (main f w) as [[a|msg|] w']; cbn in *; congruence.
Qed.

Lemma quiet_finish r : quiet (snd r) (finish r).
Proof.
  destruct r as [[a|msg|] w]; cbn; try apply quiet_refl.
  repeat split. exists [uncaught msg]. auto.
Qed.

Lemma execute_without_save f w :
  st_button f SaveBrandGuidelines = false -> serves w (execute f w).
Proof.
  intros H. rewrite execute_finish.
  eapply serves_trans; [|apply quiet_serves, quiet_finish].
  rewrite main_without_save by assumption. apply serves_main_area.
Qed.

Lemma execute_with_save f w :
  st_button f SaveBrandGuidelines = true ->
  serves (saved (sidebar_guidelines f) w) (execute f w).
Proof.
  intros H. rewrite execute_finish.
  eapply serves_trans; [|apply quiet_serves, quiet_finish].
  rewrite main_with_save by assumption. apply serves_main_area.
Qed.

Lemma execute_quiet f w :
  st_button f SaveBrandGuidelines = false ->
  st_button f GenerateCopy = false ->
  quiet w (execute f w).
Proof.
  intros Hs Hg. rewrite execute_finish.
  eapply quiet_trans; [|apply quiet_finish].
  rewrite main_without_save by assumption. now apply quiet_main_area.
Qed.

Lemma grows_saved bg w : grows w (saved bg w).
Proof.
  eexists. cbn. split; [reflexivity|]. cbn. now rewrite app_nil_r.
Qed.

Lemma execute_grows f w : grows w (execute f w).
Proof.
  destruct (st_button f SaveBrandGuidelines) eqn:H.
  - eapply grows_trans; [apply grows_saved|].
    apply serves_grows. now apply execute_with_save.
  - apply serves_grows. now apply execute_without_save.
Qed.

Lemma run_grows fs : forall w, grows w (run fs w).
Proof.
  unfold run. induction fs as [|f fs IH]; intros w; cbn.
  - apply grows_refl.
  - eapply grows_trans; [apply execute_grows | apply IH].
Qed.

Lemma run_serves fs :
  Forall (fun f => st_button f SaveBrandGuidelines = false) fs ->
  forall w, serves w (run fs w).
Proof.
  unfold run. induction 1 as [|f fs Hf _ IH]; intros w; cbn.
  - apply serves_refl.
  - eapply serves_trans; [apply (@execute_without_save f w Hf) | apply IH].
Qed.

(* ================================================================== *)
(** * Clearing the history *)
(* ================================================================== *)

(** An execution that no click on "Generate Copy" or on "Save Brand
    Guidelines" triggered leaves the session state as it was. *)
Lemma execute_keeps_session f w :
  st_button f SaveBrandGuidelines = false ->
  st_button f GenerateCopy = false ->
  session (execute f w) = session w.
Proof.
  intros Hs Hg. now destruct (@execute_quiet f w Hs Hg).
Qed.

(** C3, on the code. A click on "Clear History" leaves the history as
    it is, and so does the click on "Confirm Clear History" that
    follows it: in the execution which the second click triggers,
    [st.button] of the first button is false again, so the confirm
    button is not reached and line 435 is not executed. *)
Theorem clear_then_confirm_keeps_history :
  forall f1 f2 w,
    let w1 := execute (with_click (Some ClearHistory) f1) w in
    let w2 := execute (with_click (Some ConfirmClearHistory) f2) w1 in
    copy_history (session w1) = copy_history (session w) /\
    copy_history (session w2) = copy_history (session w).
Proof.
  intros f1 f2 w w1 w2.
  assert (H1 : session w1 = session w)
    by (apply execute_keeps_session; reflexivity).
  assert (H2 : session w2 = session w1)
    by (apply execute_keeps_session; reflexivity).
  rewrite H2, H1. auto.
Qed.

(* ================================================================== *)
(** * The history is append-only *)
(* ================================================================== *)

(** C7. In every execution of the script, and so in every session,
    the history stays a prefix of itself: what is added at its end are
    the records the agent returned, in the order of the calls; nothing
    is removed, reordered or merged.  From the start of a session the
    history is the list of all results of successful generations. *)
Theorem history_append_only :
  (forall f w, exists new,
      trace (execute f w) = trace w ++ new /\
      copy_history (session (execute f w)) =
        copy_history (session w) ++ generated new) /\
  (forall fs w, exists new,
      trace (run fs w) = trace w ++ new /\
      copy_history (session (run fs w)) =
        copy_history (session w) ++ generated new) /\
  (forall fs,
      copy_history (session (run fs initial_world)) =
        generated (trace (run fs initial_world))).
Proof.
  split; [exact (fun f w => execute_grows f w)|].
  split; [exact (fun fs w => run_grows fs w)|].
  intros fs. destruct (run_grows fs initial_world) as (new & Ht & Hh).
  rewrite Hh, Ht. reflexivity.
Qed.

(* ================================================================== *)
(** * Saving the brand guidelines *)
(* ================================================================== *)

Lemma initialize_agent_spec bg w :
  initialize_agent bg w =
    (Returned tt,
     {| session := {| agent := Some (List.length (store w));
                      copy_history := copy_history (session w);
                      brand_guidelines := Some bg |};
        store := store w ++ [{| guidelines := bg; mem := agent_init bg |}];
        trace := trace w ++ [constructed (List.length (store w)) bg] |}).
Proof. reflexivity. Qed.

Lemma guidelines_at (s : list agent_object) gs h bg :
  map guidelines s = gs ++ [bg] -> h = List.length gs ->
  option_map guidelines (nth_error s h) = Some bg.
Proof.
  intros Hm ->. rewrite <- nth_error_map, Hm.
  rewrite nth_error_app2, Nat.sub_diag; [reflexivity | lia].
Qed.

Lemma handles_through (h : handle) hs :
  Forall (fun h' => Some h = Some h') hs -> Forall (eq h) hs.
Proof.
  apply Forall_impl. congruence.
Qed.

(** C9. A save builds a new agent object from the guidelines of the
    sidebar, under a reference that no earlier object has, and stores
    that reference and those guidelines in the session.  In the
    executions that follow, until the next save, the session keeps this
    reference and these guidelines, the object behind the reference is
    still the one built from them, and every call of [generate_copy]
    goes through this reference. *)
Theorem save_replaces_agent :
  forall f w fs,
    st_button f SaveBrandGuidelines = true ->
    Forall (fun g => st_button g SaveBrandGuidelines = false) fs ->
    let bg := sidebar_guidelines f in
    let h := List.length (store w) in
    let w0 := snd (initialize_agent bg w) in
    let w1 := execute f w in
    let w2 := run fs w1 in
    (nth_error (store w) h = None /\
     agent (session w0) = Some h /\
     brand_guidelines (session w0) = Some bg /\
     nth_error (store w0) h = Some {| guidelines := bg; mem := agent_init bg |}) /\
    (agent (session w1) = Some h /\
     brand_guidelines (session w1) = Some bg /\
     option_map guidelines (nth_error (store w1) h) = Some bg) /\
    (agent (session w2) = Some h /\
     brand_guidelines (session w2) = Some bg /\
     option_map guidelines (nth_error (store w2) h) = Some bg /\
     exists new,
       trace w2 = trace w1 ++ new /\ Forall (eq h) (generate_handles new)).
Proof.
  intros f w fs Hsave Hfs bg h w0 w1 w2.
  assert (S1 : serves (saved bg w) w1) by now apply execute_with_save.
  assert (S2 : serves w1 w2) by now apply run_serves.
  destruct S1 as (Ha1 & Hb1 & Hg1 & _).
  destruct S2 as (Ha2 & Hb2 & Hg2 & new & Ht & _ & Hc).
  cbn in Ha1, Hb1, Hg1. rewrite map_app in Hg1. cbn in Hg1.
  split; [|split].
  - subst w0. rewrite initialize_agent_spec. cbn.
    split; [now apply nth_error_None|]. repeat split.
    rewrite nth_error_app2, Nat.sub_diag; [reflexivity | apply Nat.le_refl].
  - repeat split; try assumption.
    eapply guidelines_at; [exact Hg1|]. subst h. now rewrite length_map.
  - rewrite Ha2, Hb2. repeat split; try assumption.
    + rewrite <- Hg2 in Hg1.
      eapply guidelines_at; [exact Hg1|]. subst h. now rewrite length_map.
    + exists new. split; [assumption|].
      apply handles_through. rewrite Ha1 in Hc. exact Hc.
Qed.

(** *** References stay valid *)

(** The agent reference of the session points into the store. *)
Definition valid (w : world) : Prop :=
  forall h, agent (session w) = Some h -> h < List.length (store w).

Lemma serves_valid w w' : serves w w' -> valid w -> valid w'.
Proof.
  intros (Ha & _ & Hg & _) Hv h Hh.
  rewrite Ha in Hh. apply Hv in Hh.
  now rewrite <- (length_map guidelines), Hg, length_map.
Qed.

Lemma saved_valid bg w : valid (saved bg w).
Proof.
  intros h Hh. cbn in *. injection Hh as <-.
  rewrite length_app. cbn. lia.
Qed.

Lemma execute_valid f w : valid w -> valid (execute f w).
Proof.
  intros Hv. destruct (st_button f SaveBrandGuidelines) eqn:H.
  - eapply serves_valid; [now apply execute_with_save | apply saved_valid].
  - eapply serves_valid; [now apply execute_without_save | assumption].
Qed.

(** In every session the agent reference is that of an object of the
    store: the call of line 259 never meets a dangling reference. *)
Lemma run_valid fs : valid (run fs initial_world).
Proof.
  assert (H : forall w, valid w -> valid (run fs w)).
  { unfold run. induction fs as [|f fs IH]; intros w Hv; cbn; [assumption|].
    apply IH. now apply execute_valid. }
  apply H. intros h Hh. discriminate.
Qed.

(** In a session, the reference a save stores differs from the one it
    replaces. *)
Lemma save_changes_reference fs f :
  st_button f SaveBrandGuidelines = true ->
  agent (session (execute f (run fs initial_world))) <>
    agent (session (run fs initial_world)).
Proof.
  intros Hsave Heq.
  destruct (@execute_with_save f (run fs initial_world) Hsave) as (Ha & _).
  cbn in Ha. rewrite Ha in Heq. symmetry in Heq.
  apply run_valid in Heq. lia.
Qed.

(* ================================================================== *)
(** * Exporting the history *)
(* ================================================================== *)




(** Conversely, such a click on such a history offers the text. *)
Lemma export_copy_history_offers f w s :
  st_button f ExportCopyHistory = true ->
  copy_history (session w) <> [] ->
  json_dumps (export_data (copy_history (session w))) = Ok s ->
  export_copy_history f w =
    (Returned tt,
     {| session := session w; store := store w;
        trace := trace w ++ [download_button DownloadHistoryJSON s] |}).
Proof.
  intros Hb Hh Hs. unfold export_copy_history, bind, get_session.
  rewrite Hb. cbn.
  destruct (copy_history (session w)) as [|c l] eqn:E; [congruence|].
  unfold download_json. rewrite Hs. reflexivity.
Qed.

(** With an empty history the export offers nothing to download. *)
Lemma export_copy_history_empty f w :
  st_button f ExportCopyHistory = true ->
  copy_history (session w) = [] ->
  export_copy_history f w =
    (Returned tt,
     {| session := session w; store := store w;
        trace := trace w ++ [st_info_ev (lit "No copy history to export.")] |}).
Proof.
  intros Hb Hh. unfold export_copy_history, bind, get_session.
  rewrite Hb, Hh. reflexivity.
Qed.


(* ================================================================== *)
(** * More on the lists of the forms *)
(* ================================================================== *)

Lemma lstrip_nonspace c s : isspace c = false -> lstrip (c :: s) = c :: s.
Proof. intros H. simpl. now rewrite H. Qed.

Lemma lstrip_head s c t : lstrip s = c :: t -> isspace c = false.
Proof.
  induction s as [|a s IH]; simpl; [discriminate|].
  destruct (isspace a) eqn:Ha; [exact IH|].
  intros H. injection H as <- _. exact Ha.
Qed.

Lemma lstrip_idempotent s : lstrip (lstrip s) = lstrip s.
Proof.
  destruct (lstrip s) as [|c t] eqn:E; [reflexivity|].
  apply lstrip_nonspace. exact (lstrip_head _ E).
Qed.

Lemma rstrip_prefix s : exists q, s = rstrip s ++ q.
Proof.
  unfold rstrip. destruct (lstrip_suffix (rev s)) as [p [Hp _]].
  exists (rev p). rewrite <- rev_app_distr, <- Hp. now rewrite rev_involutive.
Qed.

Lemma rstrip_idempotent s : rstrip (rstrip s) = rstrip s.
Proof.
  unfold rstrip. now rewrite rev_involutive, lstrip_idempotent.
Qed.

Lemma lstrip_rstrip_lstrip s : lstrip (rstrip (lstrip s)) = rstrip (lstrip s).
Proof.
  destruct (rstrip_prefix (lstrip s)) as [q Hq].
  destruct (rstrip (lstrip s)) as [|c t] eqn:E; [reflexivity|].
  apply lstrip_nonspace. apply (lstrip_head s (t := t ++ q)).
  now rewrite Hq.
Qed.

(** Stripping twice is stripping once. *)
Lemma strip_idempotent s : strip (strip s) = strip s.
Proof.
  unfold strip at 1. unfold strip.
  now rewrite lstrip_rstrip_lstrip, rstrip_idempotent.
Qed.

Lemma lstrip_In c s : In c (lstrip s) -> In c s.
Proof.
  destruct (lstrip_suffix s) as [p [Hp _]]. intros H.
  rewrite Hp. apply in_or_app. now right.
Qed.

Lemma strip_In c s : In c (strip s) -> In c s.
Proof.
  unfold strip, rstrip. intros H.
  apply in_rev, lstrip_In in H. apply in_rev in H. now apply lstrip_In.
Qed.

Lemma stripped_nonblank_In x xs :
  In x (stripped_nonblank xs) ->
  exists y, In y xs /\ x = strip y /\ blank y = false.
Proof.
  rewrite stripped_nonblank_filter. intros H.
  apply in_map_iff in H as (y & <- & Hy).
  apply filter_In in Hy as [Hin Hb]. exists y.
  repeat split; [assumption|]. now apply negb_true_iff.
Qed.

Lemma stripped_item_ok x y :
  x = strip y -> blank y = false -> ~ In newline y ->
  x <> [] /\ ~ In newline x /\ strip x = x.
Proof.
  intros -> Hb Hn. repeat split.
  - intros E. apply strip_nil_blank in E. congruence.
  - intros H. apply Hn. now apply strip_In.
  - apply strip_idempotent.
Qed.

(** X1. The items read from a multi-line text box (key messages, table
    columns, reference copies) are never empty, never contain a line
    break, and have no whitespace left at either end; a text of
    whitespace only gives no item at all. *)
Theorem lines_list_items :
  forall raw,
    Forall (fun x => x <> [] /\ ~ In newline x /\ strip x = x)
           (lines_list raw) /\
    (blank raw = true -> lines_list raw = []) /\
    (forall items, reference_list raw = Some items ->
                   items = lines_list raw /\ raw <> []).
Proof.
  intros raw. split; [|split].
  - apply Forall_forall. intros x Hx.
    apply stripped_nonblank_In in Hx as (y & Hy & Hx & Hb).
    apply (@stripped_item_ok x y Hx Hb). now apply (split_no_sep newline raw).
  - intros Hb. apply stripped_nonblank_all_blank. now apply split_blank.
  - intros items. unfold reference_list, lines_list.
    destruct raw; simpl; [discriminate|].
    intros H. injection H as <-. split; [reflexivity | discriminate].
Qed.

Lemma split_length sep s :
  List.length (split sep s) = S (count_occ N.eq_dec s sep).
Proof.
  induction s as [|c s IH]; simpl; [reflexivity|].
  destruct (N.eqb_spec c sep) as [->|Hne].
  - destruct (N.eq_dec sep sep); [|congruence]. simpl. now rewrite IH.
  - destruct (N.eq_dec c sep); [congruence|].
    destruct (split sep s); simpl in *; [discriminate | exact IH].
Qed.

(** X2. A word list never has more words than the raw text has commas,
    plus one, and a raw text of whitespace only (the empty text
    included) gives the empty list, not a list with an empty word. *)
Theorem word_list_bounds :
  forall raw,
    List.length (word_list raw) <= S (count_occ N.eq_dec raw comma) /\
    (blank raw = true -> word_list raw = []).
Proof.
  intros raw. rewrite word_list_filter. split.
  - rewrite length_map, <- split_length. apply filter_length_le.
  - intros Hb.
    pose proof (split_blank comma raw Hb) as Hall.
    induction (split comma raw) as [|t ts IH]; [reflexivity|].
    simpl. rewrite (Hall t (or_introl eq_refl)). simpl.
    apply IH. intros u Hu. apply Hall. now right.
Qed.

(* ================================================================== *)
(** * The uploaded files of a request *)
(* ================================================================== *)

(** The entry that lines 227-231 store for one file. *)
Definition file_entry (file : UploadedFile) : FileEntry :=
  {| file_type := type file;
     file_size := Z.of_nat (List.length (bytes file));
     file_content := bytes file |}.

Lemma pystr_eqb_eq a b : pystr_eqb a b = true <-> a = b.
Proof.
  revert b. induction a as [|x a IH]; intros [|y b]; simpl;
    try (split; [discriminate | congruence]); [tauto|].
  rewrite andb_true_iff, N.eqb_eq, IH. split.
  - intros [-> ->]. reflexivity.
  - intros H. injection H as -> ->. auto.
Qed.

Lemma pystr_eqb_refl a : pystr_eqb a a = true.
Proof. now apply pystr_eqb_eq. Qed.

Lemma pystr_eqb_sym a b : pystr_eqb a b = pystr_eqb b a.
Proof.
  destruct (pystr_eqb a b) eqn:E1, (pystr_eqb b a) eqn:E2; try reflexivity.
  - apply pystr_eqb_eq in E1. subst. now rewrite pystr_eqb_refl in E2.
  - apply pystr_eqb_eq in E2. subst. now rewrite pystr_eqb_refl in E1.
Qed.

Lemma dict_get_set {V} (q k : pystr) (v : V) d :
  dict_get q (dict_set k v d) =
    if pystr_eqb q k then Some v else dict_get q d.
Proof.
  induction d as [|[k' v'] d IH]; simpl.
  - reflexivity.
  - destruct (pystr_eqb k k') eqn:Ek; simpl.
    + apply pystr_eqb_eq in Ek. subst k'.
      destruct (pystr_eqb q k); reflexivity.
    + rewrite IH. destruct (pystr_eqb q k') eqn:Eq; [|reflexivity].
      apply pystr_eqb_eq in Eq. subst k'.
      now rewrite pystr_eqb_sym, Ek.
Qed.

Lemma dict_set_keys {V} (k : pystr) (v : V) d x :
  In x (map fst (dict_set k v d)) <-> x = k \/ In x (map fst d).
Proof.
  induction d as [|[k' v'] d IH]; simpl.
  - intuition.
  - destruct (pystr_eqb k k') eqn:Ek; simpl.
    + apply pystr_eqb_eq in Ek. subst k'. intuition.
    + rewrite IH. intuition.
Qed.

Lemma dict_set_NoDup {V} (k : pystr) (v : V) d :
  NoDup (map fst d) -> NoDup (map fst (dict_set k v d)).
Proof.
  induction d as [|[k' v'] d IH]; simpl; intros H.
  - constructor; [intros [] | constructor].
  - inversion H as [|? ? Hn Hd]; subst.
    destruct (pystr_eqb k k') eqn:Ek; simpl.
    + apply pystr_eqb_eq in Ek. subst k'. now constructor.
    + constructor; [|now apply IH].
      rewrite dict_set_keys. intros [->|Hin]; [|contradiction].
      now rewrite pystr_eqb_refl in Ek.
Qed.

Lemma dict_set_Forall {V} (P : pystr * V -> Prop) k v d :
  P (k, v) -> Forall P d -> Forall P (dict_set k v d).
Proof.
  intros Hk. induction 1 as [|[k' v'] d Hx Hd IH]; simpl.
  - now constructor.
  - destruct (pystr_eqb k k'); constructor; assumption.
Qed.

Lemma read_files_snoc files file :
  read_files (files ++ [file]) =
    dict_set (name file) (file_entry file) (read_files files).
Proof.
  unfold read_files. now rewrite fold_left_app.
Qed.

(** X3. The [file_data] dict of a request has one entry per file name,
    exactly for the names of the uploaded files; under a name it holds
    the last uploaded file of that name (an earlier one is silently
    replaced), and the size of every entry is the number of its bytes. *)
Theorem read_files_last_wins :
  forall files,
    NoDup (map fst (read_files files)) /\
    (forall k, In k (map fst (read_files files)) <-> In k (map name files)) /\
    (forall n,
        dict_get n (read_files files) =
          option_map file_entry
            (find (fun file => pystr_eqb n (name file)) (rev files))) /\
    Forall (fun kv => file_size (snd kv) =
                        Z.of_nat (List.length (file_content (snd kv))))
           (read_files files).
Proof.
  intros files.
  induction files as [|file files (Hd & Hk & Hg & Hs)] using rev_ind.
  - repeat split; try constructor; intros [].
  - rewrite read_files_snoc. repeat split.
    + now apply dict_set_NoDup.
    + rewrite dict_set_keys, map_app, in_app_iff, Hk. simpl. intuition.
    + rewrite dict_set_keys, map_app, in_app_iff, Hk. simpl. intuition.
    + intros n. rewrite dict_get_set, rev_app_distr. simpl.
      destruct (pystr_eqb n (name file)); [reflexivity | apply Hg].
    + now apply dict_set_Forall.
Qed.

(* ================================================================== *)
(** * The history tab *)
(* ================================================================== *)

(** Lines 332-333: the copies the tab lists, each with the number [n]
    of its title "Copy #n":
    [for i, copy in enumerate(reversed(history[-10:]))], numbered
    [len(history) - i]. *)
Definition recent_titles (history : list GeneratedCopy)
  : list (nat * GeneratedCopy) :=
  let shown := rev (last_n 10 history) in
  combine (map (fun i => List.length history - i)
               (seq 0 (List.length shown)))
          shown.






(* ================================================================== *)
(** * More on [generate_copy] *)
(* ================================================================== *)


(** X6. When the agent returned a copy and drawing it raises, the copy
    is already in the history: [generate_copy] shows "Error generating
    copy" although the generation took place and was stored. *)
Theorem generate_copy_display_error_keeps_copy :
  forall content_type text_input uploaded_files context reference_copies
         format_type min_length max_length required_columns copy_tone
         cta_required w h o m result msg,
    blank text_input = false ->
    agent (session w) = Some h ->
    nth_error (store w) h = Some o ->
    let request :=
      build_request content_type text_input uploaded_files context
        reference_copies format_type min_length max_length
        required_columns copy_tone cta_required in
    agent_generate_copy (mem o) request = (m, Ok result) ->
    display_error result = Some msg ->
    let w' := snd (generate_copy content_type text_input uploaded_files
                     context reference_copies format_type min_length
                     max_length required_columns copy_tone cta_required w) in
    copy_history (session w') = copy_history (session w) ++ [result] /\
    trace w' =
      trace w ++ [generate_called h request (Ok result);
                  st_error_ev (lit "Error generating copy: " ++ msg)].
Proof.
  intros ct text files ctx refs fmt mn mx cols tn cta w h o m result msg
         Hb Ha Ho request Hcall Hd w'. subst w'.
  unfold generate_copy.
  rewrite strip_truthy_blank, Hb. cbn [negb]. fold request.
  unfold try_except.
  erewrite bind_returned
    by apply (@call_generate_copy_spec _ _ _ _ _ _ Ha Ho Hcall).
  unfold bind, append_history, get_session, put_session,
    display_generated_copy, raise, st_error, emit, after_call.
  rewrite Hd. cbn. rewrite <- app_assoc. auto.
Qed.

(* ================================================================== *)
(** * Counting the calls of an execution *)
(* ================================================================== *)

(** At most [n] calls of [generate_copy] between two worlds. *)
Definition calls_le (n : nat) (w w' : world) : Prop :=
  exists new,
    trace w' = trace w ++ new /\ List.length (generate_handles new) <= n.

Lemma calls_le_refl n w : calls_le n w w.
Proof. exists []. rewrite app_nil_r. split; [reflexivity | apply Nat.le_0_l]. Qed.

Lemma calls_le_trans a b w1 w2 w3 :
  calls_le a w1 w2 -> calls_le b w2 w3 -> calls_le (a + b) w1 w3.
Proof.
  intros (n1 & Ht1 & Hl1) (n2 & Ht2 & Hl2). exists (n1 ++ n2). split.
  - now rewrite Ht2, Ht1, app_assoc.
  - rewrite generate_handles_app, length_app. lia.
Qed.

Lemma quiet_calls_le w w' : quiet w w' -> calls_le 0 w w'.
Proof.
  intros (_ & _ & new & Ht & Hc). exists new. now rewrite Hc.
Qed.

Lemma calls_le_bind {A B} a b (c : script A) (k : A -> script B) :
  holds (calls_le a) c -> (forall x, holds (calls_le b) (k x)) ->
  holds (calls_le (a + b)) (bind c k).
Proof.
  intros Hc Hk w. unfold bind.
  destruct (Hc w) as [Hn Hr]. destruct (c w) as [[x|msg|] w1]; cbn in *.
  - destruct (Hk x w1) as [Hn' Hr']. split; [assumption|].
    eapply calls_le_trans; eassumption.
  - split; [discriminate|].
    replace (a + b) with (a + b + 0) by lia.
    eapply calls_le_trans; [|apply calls_le_refl].
    destruct Hr as (new & Ht & Hl). exists new. split; [assumption | lia].
  - congruence.
Qed.

Lemma calls_le_try_except {A} a b (body : script A) handler :
  holds (calls_le a) body -> (forall msg, holds (calls_le b) (handler msg)) ->
  holds (calls_le (a + b)) (try_except body handler).
Proof.
  intros Hb Hh w. unfold try_except.
  destruct (Hb w) as [Hn Hr]. destruct (body w) as [[x|msg|] w1]; cbn in *.
  - split; [discriminate|].
    destruct Hr as (new & Ht & Hl). exists new. split; [assumption | lia].
  - destruct (Hh msg w1) as [Hn' Hr']. split; [assumption|].
    eapply calls_le_trans; eassumption.
  - congruence.
Qed.

Lemma calls_le_quiet {A} (c : script A) : holds quiet c -> holds (calls_le 0) c.
Proof. apply holds_weaken. exact quiet_calls_le. Qed.

Lemma calls_le_call_generate_copy request :
  holds (calls_le 1) (call_generate_copy request).
Proof.
  intros w.
  destruct (agent (session w)) as [h|] eqn:Ha.
  2:{ rewrite call_generate_copy_no_agent by assumption.
      split; [discriminate | apply calls_le_refl]. }
  destruct (nth_error (store w) h) as [o|] eqn:Ho.
  2:{ rewrite (call_generate_copy_dangling _ _ Ha) by assumption.
      split; [discriminate | apply calls_le_refl]. }
  destruct (agent_generate_copy (mem o) request) as [m r] eqn:Hcall.
  rewrite (@call_generate_copy_spec _ _ _ _ _ _ Ha Ho Hcall).
  split; [destruct r; discriminate|].
  exists [generate_called h request r]. split; [reflexivity | apply Nat.le_refl].
Qed.

Lemma calls_le_append_history result : holds (calls_le 0) (append_history result).
Proof.
  intros w. cbn. split; [discriminate|].
  exists []. cbn. rewrite app_nil_r. split; [reflexivity | apply Nat.le_refl].
Qed.

Lemma calls_le_display result : holds (calls_le 0) (display_generated_copy result).
Proof.
  unfold display_generated_copy. apply calls_le_quiet.
  destruct (display_error result); quiet_step.
Qed.

Lemma calls_le_generate_copy
  content_type text_input uploaded_files context reference_copies
  format_type min_length max_length required_columns copy_tone cta_required :
  holds (calls_le 1)
    (generate_copy content_type text_input uploaded_files context
       reference_copies format_type min_length max_length required_columns
       copy_tone cta_required).
Proof.
  unfold generate_copy, st_error.
  destruct (negb (truthy (strip text_input))).
  - eapply holds_weaken; [|apply calls_le_quiet, quiet_emit; reflexivity].
    intros w w' (new & Ht & Hl). exists new. split; [assumption | lia].
  - apply (calls_le_try_except (a := 1) (b := 0)).
    + cbv zeta. apply (calls_le_bind (a := 1) (b := 0)).
      * apply calls_le_call_generate_copy.
      * intros result. apply (calls_le_bind (a := 0) (b := 0)).
        -- apply calls_le_append_history.
        -- intros _. apply calls_le_display.
    + intros msg. apply calls_le_quiet, quiet_emit. reflexivity.
Qed.

(** The three tabs that follow the "Generate Copy" tab. *)
Definition later_tabs (f : form) : script unit :=
  bind copy_history_interface (fun _ =>
  bind analytics_interface (fun _ =>
  settings_interface f)).

Lemma quiet_later_tabs f : holds quiet (later_tabs f).
Proof.
  unfold later_tabs.
  quiet_step; [apply quiet_copy_history_interface|].
  quiet_step; [apply quiet_analytics_interface | apply quiet_settings_interface].
Qed.

Lemma calls_le_main_area f : holds (calls_le 1) (main_area f).
Proof.
  unfold main_area, st_warning.
  apply (calls_le_bind (a := 0) (b := 1)).
  - apply calls_le_quiet. quiet_step.
  - intros s. destruct (agent s).
    + change (tabs f) with (bind (generate_copy_interface f)
                                 (fun _ => later_tabs f)).
      apply (calls_le_bind (a := 1) (b := 0)).
      * unfold generate_copy_interface.
        destruct (widget_error f).
        -- intros w. cbn. split; [discriminate | apply calls_le_refl].
        -- destruct (st_button f GenerateCopy).
           ++ apply calls_le_generate_copy.
           ++ intros w. cbn. split; [discriminate | apply calls_le_refl].
      * intros _. apply calls_le_quiet, quiet_later_tabs.
    + eapply holds_weaken; [|apply calls_le_quiet, quiet_emit; reflexivity].
      intros w w' (new & Ht & Hl). exists new. split; [assumption | lia].
Qed.

Lemma generated_length_le t :
  List.length (generated t) <= List.length (generate_handles t).
Proof.
  unfold generated, generate_handles.
  induction t as [|e t IH]; [apply Nat.le_refl|].
  destruct e; cbn; try exact IH. destruct r; cbn; lia.
Qed.

(** X7. One execution of the script calls [generate_copy] at most once,
    and so adds at most one copy to the history: no click, whatever the
    form holds, leads to a double submission. *)
Theorem one_call_per_execution :
  forall f w, exists new,
    trace (execute f w) = trace w ++ new /\
    List.length (generate_handles new) <= 1 /\
    copy_history (session (execute f w)) =
      copy_history (session w) ++ generated new /\
    List.length (generated new) <= 1.
Proof.
  intros f w.
  assert (H : calls_le 1 w (execute f w)).
  { rewrite execute_finish.
    replace 1 with (0 + 1 + 0) by reflexivity.
    eapply calls_le_trans; [|apply quiet_calls_le, quiet_finish].
    destruct (st_button f SaveBrandGuidelines) eqn:Hs.
    - rewrite main_with_save by assumption.
      eapply calls_le_trans; [|apply calls_le_main_area].
      exists [constructed (List.length (store w)) (sidebar_guidelines f);
              st_success_ev (lit "Brand guidelines saved!")].
      split; [reflexivity | apply Nat.le_refl].
    - rewrite main_without_save by assumption.
      eapply calls_le_trans; [apply calls_le_refl | apply calls_le_main_area]. }
  destruct H as (new & Ht & Hl).
  destruct (execute_grows f w) as (new' & Ht' & Hh).
  assert (new' = new) by (apply (app_inv_head (trace w)); congruence).
  subst new'. exists new. repeat split; try assumption.
  pose proof (generated_length_le new). lia.
Qed.

(* ================================================================== *)
(** * More on the executions *)
(* ================================================================== *)

Lemma st_button_not_clicked f b : clicked f <> Some b -> st_button f b = false.
Proof.
  unfold st_button. destruct (clicked f) as [c|]; [|reflexivity].
  destruct b, c; cbn; congruence.
Qed.

Lemma st_button_clicked f b b' :
  clicked f = Some b -> st_button f b' = button_eqb b' b.
Proof. unfold st_button. now intros ->. Qed.

Lemma main_area_no_agent f w :
  agent (session w) = None ->
  main_area f w =
    st_warning (warning_sign ++ lit " Please configure and save your brand guidelines in the sidebar first.") w.
Proof.
  intros Ha. unfold main_area, bind, get_session. now rewrite Ha.
Qed.

Lemma main_area_ready f w h :
  agent (session w) = Some h -> main_area f w = tabs f w.
Proof.
  intros Ha. unfold main_area, bind, get_session. now rewrite Ha.
Qed.

(** X8. As long as no guidelines were saved, an execution that is not
    triggered by "Save Brand Guidelines" shows the warning and nothing
    else: the tabs are not drawn, no call reaches an agent, and the
    session state stays as it is. *)
Theorem without_agent_only_warning :
  forall f w,
    agent (session w) = None ->
    clicked f <> Some SaveBrandGuidelines ->
    execute f w =
      {| session := session w;
         store := store w;
         trace := trace w ++ [st_warning_ev (warning_sign ++ lit " Please configure and save your brand guidelines in the sidebar first.")] |}.
Proof.
  intros f w Ha Hs. apply st_button_not_clicked in Hs.
  rewrite execute_finish, main_without_save by assumption.
  now rewrite main_area_no_agent.
Qed.

(** The request that lines 197-210 and 233-256 build from the form:
    the table columns count for the "table" format only. *)
Definition form_request (f : form) : CopyRequest :=
  build_request (form_content_type f) (form_text_input f)
    (form_uploaded_files f) (form_context f) (form_reference_copies f)
    (form_format_type f) (form_min_length f) (form_max_length f)
    (match form_format_type f with
     | table => lines_list (form_columns_input f)
     | _ => []
     end)
    (form_copy_tone f) (form_cta_required f).

Lemma generate_copy_trace
  content_type text_input uploaded_files context reference_copies
  format_type min_length max_length required_columns copy_tone cta_required
  w h o :
  blank text_input = false ->
  agent (session w) = Some h ->
  nth_error (store w) h = Some o ->
  let request :=
    build_request content_type text_input uploaded_files context
      reference_copies format_type min_length max_length required_columns
      copy_tone cta_required in
  exists w1 tail,
    generate_copy content_type text_input uploaded_files context
      reference_copies format_type min_length max_length required_columns
      copy_tone cta_required w = (Returned tt, w1) /\
    trace w1 =
      trace w ++ generate_called h request
                   (snd (agent_generate_copy (mem o) request)) :: tail /\
    generate_handles tail = [].
Proof.
  intros Hb Ha Ho request.
  unfold generate_copy. rewrite strip_truthy_blank, Hb. cbn [negb].
  fold request. unfold try_except.
  destruct (agent_generate_copy (mem o) request) as [m [c|msg]] eqn:Hcall.
  - erewrite bind_returned
      by apply (@call_generate_copy_spec _ _ _ _ _ _ Ha Ho Hcall).
    unfold bind, append_history, get_session, put_session,
      display_generated_copy, raise, st_error, emit, after_call.
    destruct (display_error c) as [msg|]; cbn;
      eexists; eexists; (split; [reflexivity|]); cbn;
      rewrite <- app_assoc; cbn; split; reflexivity.
  - erewrite bind_raised
      by apply (@call_generate_copy_spec _ _ _ _ _ _ Ha Ho Hcall).
    unfold st_error, emit, after_call. cbn.
    eexists; eexists; (split; [reflexivity|]); cbn.
    rewrite <- app_assoc. cbn. split; reflexivity.
Qed.

(** X9. In a session with saved guidelines, a click on "Generate Copy"
    with a main content that is not blank calls the agent of the
    session exactly once, with the request built from the form (the
    table columns only for the "table" format); nothing else in that
    execution calls [generate_copy]. *)
Theorem generate_click_calls_agent_once :
  forall f w h o,
    clicked f = Some GenerateCopy ->
    widget_error f = None ->
    blank (form_text_input f) = false ->
    agent (session w) = Some h ->
    nth_error (store w) h = Some o ->
    exists tail,
      trace (execute f w) =
        trace w ++ generate_called h (form_request f)
                     (snd (agent_generate_copy (mem o) (form_request f)))
                   :: tail /\
      generate_handles tail = [].
Proof.
  intros f w h o Hc Hw Hb Ha Ho.
  assert (Hs : st_button f SaveBrandGuidelines = false)
    by (rewrite (@st_button_clicked f _ _ Hc); reflexivity).
  assert (Hg : st_button f GenerateCopy = true)
    by (rewrite (@st_button_clicked f _ _ Hc); reflexivity).
  rewrite execute_finish, main_without_save by assumption.
  rewrite (@main_area_ready f w h Ha).
  change (tabs f) with (bind (generate_copy_interface f)
                             (fun _ => later_tabs f)).
  destruct (@generate_copy_trace
              (form_content_type f) (form_text_input f)
              (form_uploaded_files f) (form_context f)
              (form_reference_copies f) (form_format_type f)
              (form_min_length f) (form_max_length f)
              (match form_format_type f with
               | table => lines_list (form_columns_input f)
               | _ => []
               end)
              (form_copy_tone f) (form_cta_required f) w h o Hb Ha Ho)
    as (w1 & tail & Hrun & Ht & Hh).
  assert (Hi : generate_copy_interface f w = (Returned tt, w1)).
  { unfold generate_copy_interface. rewrite Hw, Hg. exact Hrun. }
  erewrite bind_returned by exact Hi.
  destruct (quiet_later_tabs f w1) as [_ (_ & _ & n1 & Ht1 & Hh1)].
  destruct (quiet_finish (later_tabs f w1)) as (_ & _ & n2 & Ht2 & Hh2).
  exists (tail ++ n1 ++ n2). split.
  - rewrite Ht2, Ht1, Ht. fold (form_request f).
    rewrite <- !app_assoc. reflexivity.
  - rewrite !generate_handles_app, Hh, Hh1, Hh2. reflexivity.
Qed.

(** X10. Saving the guidelines again keeps the history: the execution
    constructs one agent, reports the save, calls no generation, and
    leaves every copy where it was. *)
Theorem save_keeps_history :
  forall f w,
    clicked f = Some SaveBrandGuidelines ->
    copy_history (session (execute f w)) = copy_history (session w) /\
    exists new,
      trace (execute f w) =
        trace w ++ constructed (List.length (store w)) (sidebar_guidelines f)
                :: st_success_ev (lit "Brand guidelines saved!") :: new /\
      generate_handles new = [].
Proof.
  intros f w Hc.
  assert (Hs : st_button f SaveBrandGuidelines = true)
    by (rewrite (@st_button_clicked f _ _ Hc); reflexivity).
  assert (Hg : st_button f GenerateCopy = false)
    by (rewrite (@st_button_clicked f _ _ Hc); reflexivity).
  rewrite execute_finish, main_with_save by assumption.
  destruct (@quiet_main_area f Hg (saved (sidebar_guidelines f) w))
    as [_ (Hs1 & _ & n1 & Ht1 & Hh1)].
  destruct (quiet_finish (main_area f (saved (sidebar_guidelines f) w)))
    as (Hs2 & _ & n2 & Ht2 & Hh2).
  split.
  - rewrite Hs2, Hs1. reflexivity.
  - exists (n1 ++ n2). split.
    + rewrite Ht2, Ht1. cbn. rewrite <- !app_assoc. reflexivity.
    + now rewrite generate_handles_app, Hh1, Hh2.
Qed.

(** X11. Any other interaction (export, clear, confirm, a download, a
    changed widget) leaves the session state as it is: same agent,
    same guidelines, same history, and no call of [generate_copy]. *)
Theorem other_clicks_keep_session :
  forall f w,
    clicked f <> Some SaveBrandGuidelines ->
    clicked f <> Some GenerateCopy ->
    session (execute f w) = session w /\
    map guidelines (store (execute f w)) = map guidelines (store w) /\
    exists new,
      trace (execute f w) = trace w ++ new /\ generate_handles new = [].
Proof.
  intros f w Hs Hg.
  apply st_button_not_clicked in Hs. apply st_button_not_clicked in Hg.
  exact (@execute_quiet f w Hs Hg).
Qed.

(** X12. The store keeps every agent object ever built: after a session
    it lists, in order, the guidelines of each save of the session,
    after those it started with; nothing but a save builds an agent. *)
Theorem store_lists_the_saves :
  forall fs w,
    map guidelines (store (run fs w)) =
      map guidelines (store w)
        ++ map sidebar_guidelines
             (filter (fun f => st_button f SaveBrandGuidelines) fs).
Proof.
  unfold run. induction fs as [|f fs IH]; intros w; cbn.
  - now rewrite app_nil_r.
  - rewrite IH. destruct (st_button f SaveBrandGuidelines) eqn:Hs.
    + destruct (@execute_with_save f w Hs) as (_ & _ & Hg & _).
      rewrite Hg. cbn. rewrite map_app, <- app_assoc. reflexivity.
    + destruct (@execute_without_save f w Hs) as (_ & _ & Hg & _).
      now rewrite Hg.
Qed.






(** ** When the metrics fail *)

Lemma copy_history_interface_shown w :
  copy_history (session w) <> [] ->
  copy_history_interface w =
    (Returned tt,
     {| session := session w; store := store w;
        trace := trace w ++ [recent_copies_shown
                               (rev (last_n 10 (copy_history (session w))))] |}).
Proof.
  intros Hh. unfold copy_history_interface, bind, get_session.
  destruct (copy_history (session w)); [congruence | reflexivity].
Qed.

Lemma call_get_performance_metrics_spec w h o m r :
  nth_error (store w) h = Some o ->
  agent_get_performance_metrics (mem o) = (m, r) ->
  call_get_performance_metrics h w =
    (match r with
     | Ok x => Returned x
     | Exception msg => Raised msg
     end,
     {| session := session w;
        store := store_update h m (store w);
        trace := trace w ++ [metrics_called h r] |}).
Proof.
  intros Ho Hm. unfold call_get_performance_metrics, bind, lookup.
  rewrite Ho, Hm. unfold set_mem, emit. cbn.
  destruct r; reflexivity.
Qed.

Lemma analytics_interface_raises w h o m msg :
  copy_history (session w) <> [] ->
  agent (session w) = Some h ->
  nth_error (store w) h = Some o ->
  agent_get_performance_metrics (mem o) = (m, Exception msg) ->
  analytics_interface w =
    (Raised msg,
     {| session := session w;
        store := store_update h m (store w);
        trace := trace w ++ [metrics_called h (Exception msg)] |}).
Proof.
  intros Hh Ha Ho Hm. unfold analytics_interface, bind at 1, get_session.
  destruct (copy_history (session w)) as [|c l]; [congruence|].
  rewrite Ha. eapply bind_raised.
  apply (@call_get_performance_metrics_spec _ h o m (Exception msg));
    [exact Ho | exact Hm].
Qed.

(** X14. An exception of [get_performance_metrics] is not caught: the
    execution ends in the Analytics tab, and the Settings tab is not
    drawn, so a click on "Export Copy History" offers no download.  The
    session state is not touched. *)
Theorem metrics_failure_ends_execution :
  forall f w h o m msg,
    clicked f <> Some SaveBrandGuidelines ->
    clicked f <> Some GenerateCopy ->
    widget_error f = None ->
    agent (session w) = Some h ->
    nth_error (store w) h = Some o ->
    copy_history (session w) <> [] ->
    agent_get_performance_metrics (mem o) = (m, Exception msg) ->
    execute f w =
      {| session := session w;
         store := store_update h m (store w);
         trace := trace w ++ [recent_copies_shown
                                (rev (last_n 10 (copy_history (session w))));
                              metrics_called h (Exception msg);
                              uncaught msg] |}.
Proof.
  intros f w h o m msg Hs Hg Hw Ha Ho Hh Hm.
  apply st_button_not_clicked in Hs. apply st_button_not_clicked in Hg.
  rewrite execute_finish, main_without_save by assumption.
  rewrite (@main_area_ready f w h Ha).
  change (tabs f) with (bind (generate_copy_interface f)
                             (fun _ => later_tabs f)).
  assert (Hi : generate_copy_interface f w = (Returned tt, w)).
  { unfold generate_copy_interface. now rewrite Hw, Hg. }
  erewrite bind_returned by exact Hi.
  unfold later_tabs.
  erewrite bind_returned by (apply copy_history_interface_shown; exact Hh).
  erewrite bind_raised
    by (apply (@analytics_interface_raises _ h o m msg); assumption).
  cbn. rewrite <- !app_assoc. reflexivity.
Qed.

(* ================================================================== *)
(** * The export of the guidelines *)
(* ================================================================== *)




End CopyBot.

(* ================================================================== *)
(** * A session with a stub agent *)
(* ================================================================== *)

Module Demo.

(** Tables are not produced by the stub; timestamps are seconds. *)
Definition DataFrame := unit.
Definition df_str (_ : DataFrame) : pystr := [].
Definition datetime := N.
Definition isoformat (t : datetime) : pystr :=
  lit "2024-05-01T12:00:"
    ++ (if (t mod 60 <? 10)%N then [48%N] else []) ++ Json.digits (t mod 60).

(** [str.lower] on ASCII text. *)
Definition lower (s : pystr) : pystr :=
  map (fun c => if ((65 <=? c) && (c <=? 90))%N then (c + 32)%N else c) s.

(** The stub agent counts the calls it served.  It refuses a request
    whose context is "fail", and otherwise returns the main content
    with a fixed score. *)
Definition AgentMem := N.
Definition agent_init (_ : BrandGuidelines) : AgentMem := 0%N.

Definition copy_of (served : N) (text : pystr)
  : GeneratedCopy DataFrame datetime :=
  {| content := Plain DataFrame text;
     word_count := Z.of_nat (List.length (split 32%N text));
     compliance_score := 0.75%float;
     timestamp := served;
     request_id := lit "req-" ++ Json.digits served;
     metadata := [(lit "request_type", PStr (lit "Product Launch"))] |}.

Definition agent_generate_copy (served : AgentMem) (request : CopyRequest)
  : AgentMem * result (GeneratedCopy DataFrame datetime) :=
  ((served + 1)%N,
   if pystr_eqb (context request) (lit "fail")
   then Exception (lit "quota exceeded")
   else Ok (copy_of served (main_content (input_data request)))).

Definition agent_get_performance_metrics (served : AgentMem)
  : AgentMem * result Metrics :=
  (served,
   Ok {| total_copies_generated := Z.of_N served;
         average_compliance_score := 0.75%float;
         average_word_count := 3%float;
         recent_copies := Z.of_N served |}).

Definition display_error (_ : GeneratedCopy DataFrame datetime)
  : option pystr := None.

Definition widget_error (f : form) : option pystr :=
  if (50 <? form_min_length f)%Z
  then Some (lit "The default `value` 50 must be greater than or equal to the `min_value`")
  else None.

Definition world := world DataFrame datetime AgentMem.

Definition generate_copy :=
  generate_copy agent_generate_copy display_error.

Definition execute : form -> world -> world :=
  execute df_str isoformat lower Json.dumps agent_init agent_generate_copy
          agent_get_performance_metrics display_error widget_error.

Definition run : list form -> world -> world :=
  run df_str isoformat lower Json.dumps agent_init agent_generate_copy
      agent_get_performance_metrics display_error widget_error.

(** The form with the default values of the source, the given main
    content and context, and the given trigger. *)
Definition filled (text context : pystr) (click : option button) : form :=
  {| form_brand_name := lit "YourBrand";
     form_selected_tones := [lit "Professional"; lit "Friendly"];
     form_key_messages :=
       lit "We deliver exceptional results" ++ [newline]
         ++ lit "Your trusted partner in success";
     form_avoid_words := lit "cheap, basic, simple";
     form_prefer_words := lit "premium, advanced, innovative, quality";
     form_target_audience := lit "Business professionals and decision makers";
     form_content_type := ProductLaunch;
     form_text_input := text;
     form_uploaded_files := [];
     form_context := context;
     form_reference_copies := [];
     form_format_type := table;
     form_min_length := 10;
     form_max_length := 50;
     form_columns_input :=
       lit "Feature" ++ [newline] ++ lit "Benefit" ++ [newline]
         ++ lit "Description";
     form_copy_tone := professional;
     form_cta_required := false;
     clicked := click |}.

Definition save : form := filled [] [] (Some SaveBrandGuidelines).

Definition generate (text : pystr) : form :=
  filled text [] (Some GenerateCopy).

Definition failing : form :=
  filled (lit "Fresh coffee daily") (lit "fail") (Some GenerateCopy).

Definition press (b : button) : form := filled [] [] (Some b).

Definition start : world := initial_world DataFrame datetime AgentMem.

(** The session after the guidelines were saved. *)
Definition ready : world := Eval vm_compute in execute save start.

(** ... and after three generations. *)
Definition three : world :=
  Eval vm_compute in
    run [generate (lit "Fresh coffee daily");
         generate (lit "Tea");
         generate (lit "Hot chocolate for cold days")] ready.


End Demo.

(** ** The word lists *)

Example word_list_defaults :
  word_list Demo.lower (lit "cheap, basic, simple") =
    [lit "cheap"; lit "basic"; lit "simple"].
Proof. reflexivity. Qed.

Example word_list_drops_blank_tokens :
  word_list Demo.lower (lit " Cheap ,, BASIC , ") = [lit "cheap"; lit "basic"].
Proof. reflexivity. Qed.

(** C6, against the wording "split on commas/newlines". On the input
    of two words separated by a newline the code stores one word that
    contains the newline, where the wording asks for two words. *)
Lemma word_list_keeps_newline :
  word_list Demo.lower (lit "Cheap" ++ [newline] ++ lit "Basic") =
    [lit "cheap" ++ [newline] ++ lit "basic"] /\
  spec_word_list Demo.lower (lit "Cheap" ++ [newline] ++ lit "Basic") =
    [lit "cheap"; lit "basic"] /\
  word_list Demo.lower (lit "Cheap" ++ [newline] ++ lit "Basic") <>
    spec_word_list Demo.lower (lit "Cheap" ++ [newline] ++ lit "Basic").
Proof. repeat split. discriminate. Qed.

(** ** The reference copies *)

Example reference_list_empty : reference_list [] = None.
Proof. reflexivity. Qed.

Example reference_list_whitespace :
  reference_list (lit "  " ++ [newline] ++ lit " ") = Some [].
Proof. reflexivity. Qed.

Example reference_list_lines :
  reference_list (lit " Buy now " ++ [newline; newline] ++ lit "Try it") =
    Some [lit "Buy now"; lit "Try it"].
Proof. reflexivity. Qed.

(** ** Generations *)

Lemma generate_copy_blank_input_witness :
  blank (lit "  " ++ [newline]) = true /\
  let r := Demo.generate_copy ProductLaunch (lit "  " ++ [newline]) [] [] []
             table 10 50 [] professional false Demo.three in
  fst r = Returned tt /\
  session (snd r) = session Demo.three /\
  store (snd r) = store Demo.three /\
  trace (snd r) =
    trace Demo.three
      ++ [st_error_ev _ _ (lit "Please provide main content/description.")].
Proof.
  split; [reflexivity|].
  apply generate_copy_blank_input. reflexivity.
Defined.

Lemma generate_copy_success_appends_witness :
  blank (lit "Tea") = false /\
  copy_history
    (session (snd (Demo.generate_copy ProductLaunch (lit "Tea") [] [] [] table
                     10 50 [] professional false Demo.three))) =
    copy_history (session Demo.three) ++ [Demo.copy_of 3 (lit "Tea")].
Proof.
  split; [reflexivity|].
  eapply proj1. eapply generate_copy_success_appends; reflexivity.
Defined.

Lemma generate_copy_agent_error_witness :
  blank (lit "Tea") = false /\
  let r := Demo.generate_copy ProductLaunch (lit "Tea") [] (lit "fail") []
             table 10 50 [] professional false Demo.three in
  fst r = Returned tt /\
  session (snd r) = session Demo.three /\
  trace (snd r) =
    trace Demo.three
      ++ [generate_called 0
            (build_request ProductLaunch (lit "Tea") [] (lit "fail") [] table
                           10 50 [] professional false)
            (Exception (lit "quota exceeded"));
          st_error_ev _ _ (lit "Error generating copy: quota exceeded")].
Proof.
  split; [reflexivity|].
  eapply generate_copy_agent_error; reflexivity.
Defined.

(** ** Clearing *)

(** C3 on a history of three copies: after "Clear History" and then
    "Confirm Clear History" the three copies are still there. *)
Example clear_then_confirm_three :
  copy_history
    (session (Demo.run [Demo.press ClearHistory;
                        Demo.press ConfirmClearHistory] Demo.three)) =
    [Demo.copy_of 0 (lit "Fresh coffee daily");
     Demo.copy_of 1 (lit "Tea");
     Demo.copy_of 2 (lit "Hot chocolate for cold days")].
Proof. vm_compute. reflexivity. Qed.

(** ** Saving again *)

Lemma save_replaces_agent_witness :
  st_button Demo.save SaveBrandGuidelines = true /\
  Forall (fun g => st_button g SaveBrandGuidelines = false)
         [Demo.generate (lit "Tea"); Demo.press ExportCopyHistory] /\
  agent (session (Demo.execute Demo.save Demo.three)) = Some 1 /\
  exists new,
    trace (Demo.run [Demo.generate (lit "Tea"); Demo.press ExportCopyHistory]
                    (Demo.execute Demo.save Demo.three)) =
      trace (Demo.execute Demo.save Demo.three) ++ new /\
    Forall (eq 1) (generate_handles new).
Proof.
  assert (H1 : st_button Demo.save SaveBrandGuidelines = true) by reflexivity.
  assert (H2 : Forall (fun g => st_button g SaveBrandGuidelines = false)
                 [Demo.generate (lit "Tea"); Demo.press ExportCopyHistory])
    by (repeat constructor).
  split; [exact H1|]. split; [exact H2|].
  destruct (@save_replaces_agent _ Demo.df_str _ Demo.isoformat Demo.lower
              Json.dumps _ Demo.agent_init Demo.agent_generate_copy
              Demo.agent_get_performance_metrics Demo.display_error
              Demo.widget_error Demo.save Demo.three _ H1 H2) as (_ & (Ha & _) & (_ & _ & _ & Hn)).
  split; [exact Ha | exact Hn].
Defined.

(** ** Exporting *)


(* ================================================================== *)
(** * More runs with the stub agent *)
(* ================================================================== *)

Module Faulty.

(** Drawing any result fails: the spreadsheet writer is missing. *)
Definition display_error (_ : GeneratedCopy Demo.DataFrame Demo.datetime)
  : option pystr := Some (lit "No module named 'openpyxl'").

(** The metrics of the agent are not available. *)
Definition agent_get_performance_metrics (served : Demo.AgentMem)
  : Demo.AgentMem * result Metrics :=
  (served, Exception (lit "metrics unavailable")).

Definition execute : form -> Demo.world -> Demo.world :=
  execute Demo.df_str Demo.isoformat Demo.lower Json.dumps Demo.agent_init
          Demo.agent_generate_copy agent_get_performance_metrics
          Demo.display_error Demo.widget_error.

End Faulty.

Example lines_list_key_messages :
  lines_list (form_key_messages Demo.save) =
    [lit "We deliver exceptional results";
     lit "Your trusted partner in success"].
Proof. reflexivity. Qed.

Example recent_titles_three :
  map fst (recent_titles (copy_history (session Demo.three))) = [3; 2; 1].
Proof. reflexivity. Qed.

Lemma generate_copy_display_error_keeps_copy_witness :
  blank (lit "Tea") = false /\
  let w' := snd (generate_copy Demo.agent_generate_copy Faulty.display_error
                   ProductLaunch (lit "Tea") [] [] [] table 10 50 []
                   professional false Demo.three) in
  copy_history (session w') =
    copy_history (session Demo.three) ++ [Demo.copy_of 3 (lit "Tea")] /\
  trace w' =
    trace Demo.three
      ++ [generate_called 0
            (build_request ProductLaunch (lit "Tea") [] [] [] table 10 50 []
                           professional false)
            (Ok (Demo.copy_of 3 (lit "Tea")));
          st_error_ev _ _
            (lit "Error generating copy: No module named 'openpyxl'")].
Proof.
  split; [reflexivity|].
  eapply generate_copy_display_error_keeps_copy; reflexivity.
Defined.

Lemma without_agent_only_warning_witness :
  agent (session Demo.start) = None /\
  clicked (Demo.generate (lit "Tea")) <> Some SaveBrandGuidelines /\
  Demo.execute (Demo.generate (lit "Tea")) Demo.start =
    {| session := session Demo.start;
       store := store Demo.start;
       trace := trace Demo.start
                  ++ [st_warning_ev _ _
                        (warning_sign ++ lit " Please configure and save your brand guidelines in the sidebar first.")] |}.
Proof.
  assert (H1 : agent (session Demo.start) = None) by reflexivity.
  assert (H2 : clicked (Demo.generate (lit "Tea")) <> Some SaveBrandGuidelines)
    by discriminate.
  split; [exact H1|]. split; [exact H2|].
  apply without_agent_only_warning; assumption.
Defined.

Lemma generate_click_calls_agent_once_witness :
  clicked (Demo.generate (lit "Tea")) = Some GenerateCopy /\
  Demo.widget_error (Demo.generate (lit "Tea")) = None /\
  blank (form_text_input (Demo.generate (lit "Tea"))) = false /\
  agent (session Demo.three) = Some 0 /\
  exists tail,
    trace (Demo.execute (Demo.generate (lit "Tea")) Demo.three) =
      trace Demo.three
        ++ generate_called 0 (form_request (Demo.generate (lit "Tea")))
             (Ok (Demo.copy_of 3 (lit "Tea")))
        :: tail /\
    generate_handles tail = [].
Proof.
  repeat (split; [reflexivity|]).
  exact (@generate_click_calls_agent_once
           _ Demo.df_str _ Demo.isoformat Demo.lower Json.dumps _
           Demo.agent_init Demo.agent_generate_copy
           Demo.agent_get_performance_metrics Demo.display_error
           Demo.widget_error (Demo.generate (lit "Tea")) Demo.three 0
           {| guidelines := sidebar_guidelines Demo.lower Demo.save;
              mem := 3%N |}
           eq_refl eq_refl eq_refl eq_refl eq_refl).
Defined.

Lemma save_keeps_history_witness :
  clicked Demo.save = Some SaveBrandGuidelines /\
  copy_history (session (Demo.execute Demo.save Demo.three)) =
    copy_history (session Demo.three).
Proof.
  split; [reflexivity|].
  eapply proj1. apply save_keeps_history. reflexivity.
Defined.

Lemma other_clicks_keep_session_witness :
  clicked (Demo.press ExportCopyHistory) <> Some SaveBrandGuidelines /\
  clicked (Demo.press ExportCopyHistory) <> Some GenerateCopy /\
  session (Demo.execute (Demo.press ExportCopyHistory) Demo.three) =
    session Demo.three.
Proof.
  assert (H1 : clicked (Demo.press ExportCopyHistory)
               <> Some SaveBrandGuidelines) by discriminate.
  assert (H2 : clicked (Demo.press ExportCopyHistory) <> Some GenerateCopy)
    by discriminate.
  split; [exact H1|]. split; [exact H2|].
  eapply proj1. apply other_clicks_keep_session; assumption.
Defined.

Lemma metrics_failure_ends_execution_witness :
  clicked (Demo.press ExportCopyHistory) <> Some SaveBrandGuidelines /\
  clicked (Demo.press ExportCopyHistory) <> Some GenerateCopy /\
  copy_history (session Demo.three) <> [] /\
  Faulty.execute (Demo.press ExportCopyHistory) Demo.three =
    {| session := session Demo.three;
       store := store_update 0 3%N (store Demo.three);
       trace := trace Demo.three
                  ++ [recent_copies_shown
                        (rev (last_n 10 (copy_history (session Demo.three))));
                      metrics_called _ _ 0
                        (Exception (lit "metrics unavailable"));
                      uncaught _ _ (lit "metrics unavailable")] |}.
Proof.
  assert (H1 : clicked (Demo.press ExportCopyHistory)
               <> Some SaveBrandGuidelines) by discriminate.
  assert (H2 : clicked (Demo.press ExportCopyHistory) <> Some GenerateCopy)
    by discriminate.
  assert (H3 : copy_history (session Demo.three) <> []) by discriminate.
  split; [exact H1|]. split; [exact H2|]. split; [exact H3|].
  exact (@metrics_failure_ends_execution
           _ Demo.df_str _ Demo.isoformat Demo.lower Json.dumps _
           Demo.agent_init Demo.agent_generate_copy
           Faulty.agent_get_performance_metrics Demo.display_error
           Demo.widget_error (Demo.press ExportCopyHistory) Demo.three 0
           {| guidelines := sidebar_guidelines Demo.lower Demo.save;
              mem := 3%N |}
           3%N (lit "metrics unavailable")
           H1 H2 eq_refl eq_refl eq_refl H3 eq_refl).
Defined.

